(** * yt-doc-mvp: a shallow embedding of the extraction pipeline

    The development follows the Python sources module by module:
    [Py] is the small part of the Python runtime the code relies on
    (strings, integers, exceptions, [print]), [re] the regular
    expressions of [schemas.py], and [utils], [schemas], [processor] and
    [main] embed the functions of the files of the same name.  The
    properties are stated and proved after the definitions. *)

From Stdlib Require Import ZArith String Ascii List DecimalString Bool Lia.
From Stdlib Require DecimalPos DecimalZ.
From stdpp Require Import base option list strings gmap.

Local Open Scope Z_scope.

(* ================================================================== *)
(** ** The Python runtime *)
(* ================================================================== *)

Module Py.

(** *** Strings

    A [str] is a sequence of characters; [len] and slicing count
    characters.  A character is an [ascii] code; every literal and every
    character class of the program is ASCII. *)

Definition nl : string := String "010" EmptyString.

Definition len (s : string) : Z := Z.of_nat (String.length s).

Fixpoint take (n : nat) (s : string) : string :=
  match n, s with
  | S n', String c s' => String c (take n' s')
  | _, _ => EmptyString
  end.

(** [s[:n]]: a negative bound counts from the end of the string. *)
Definition slice_to (s : string) (n : Z) : string :=
  if n <? 0 then take (Z.to_nat (len s + n)) s else take (Z.to_nat n) s.

(** [sep.join(parts)] *)
Fixpoint join (sep : string) (parts : list string) : string :=
  match parts with
  | [] => EmptyString
  | [p] => p
  | p :: rest => p +:+ sep +:+ join sep rest
  end.

(** [str(n)] for an [int]. *)
Definition str_of_int (n : Z) : string := NilZero.string_of_int (Z.to_int n).

(** [format(n, ",")]: a comma before every digit that is followed by a
    multiple of three digits, after the sign. *)
Fixpoint commas (digits : string) : string :=
  match digits with
  | EmptyString => EmptyString
  | String d rest =>
      String d
        (match rest with
         | EmptyString => EmptyString
         | String _ _ =>
             if (String.length rest mod 3 =? 0)%nat then "," +:+ commas rest
             else commas rest
         end)
  end.

Definition format_comma (n : Z) : string :=
  if n <? 0 then "-" +:+ commas (str_of_int (- n)) else commas (str_of_int n).

(** *** Values stored in the metadata dictionaries

    The three tiers fill the dictionary with [None], integers and
    strings (the field types of [schemas.VideoInfo]). *)

Inductive value : Type :=
| VNone
| VInt (n : Z)
| VStr (s : string).

(** Truth value of an object in a condition. *)
Definition truthy (v : value) : bool :=
  match v with
  | VNone => false
  | VInt n => negb (n =? 0)
  | VStr s => negb (String.eqb s EmptyString)
  end.

(** [f"{v}"] *)
Definition str (v : value) : string :=
  match v with
  | VNone => "None"
  | VInt n => str_of_int n
  | VStr s => s
  end.

(** [d.get(key)] and [d.get(key, default)] *)
Definition get (d : gmap string value) (key : string) : value :=
  default VNone (d !! key).

Definition get_default (d : gmap string value) (key : string) (dflt : value) : value :=
  default dflt (d !! key).

(** *** Exceptions

    An [exception] is an instance of a subclass of Python's [Exception],
    which is what the library calls of this program raise and what its
    handlers ([except Exception] and the bare [except:] around the
    caption look-ups) catch.  [ValidationError] is pydantic's, and
    derives from [ValueError]. *)

Inductive exc_class : Type :=
| ValueError
| TypeError
| KeyError
| ValidationError
| LibraryError (name : string).

Record exception : Type := Exc { exc_cls : exc_class; exc_str : string }.

(** [isinstance(e, ValueError)], the test of [except ValueError]. *)
Definition is_ValueError (e : exception) : bool :=
  match exc_cls e with
  | ValueError | ValidationError => true
  | _ => false
  end.

Inductive outcome (A : Type) : Type :=
| Returned (a : A)
| Raised (e : exception).
Arguments Returned {A} a.
Arguments Raised {A} e.

Definition obind {A B} (o : outcome A) (f : A -> outcome B) : outcome B :=
  match o with
  | Returned a => f a
  | Raised e => Raised e
  end.

(** *** Effects

    What a run does to the outside world, in order: lines written by
    [print] and calls into the three provider libraries. *)

Inductive event : Type :=
| Stdout (line : string)
| CallExtractInfo (url : string)
| CallPytube (url : string)
| CallListTranscripts (video_id : string)
| CallFetch (language_code : string)
| CallFormatTranscript.

(** A computation: the events it performed, and how it ended. *)
Definition M (A : Type) : Type := list event * outcome A.

Definition ret {A} (a : A) : M A := ([], Returned a).

Definition raise {A} (e : exception) : M A := ([], Raised e).

Definition bind {A B} (m : M A) (f : A -> M B) : M B :=
  match m with
  | (tr, Returned a) => let (tr', o) := f a in (tr ++ tr', o)
  | (tr, Raised e) => (tr, Raised e)
  end.

(** [try: m  except Exception as e: h e] (also the bare [except:]) *)
Definition try_except {A} (m : M A) (h : exception -> M A) : M A :=
  match m with
  | (tr, Returned a) => (tr, Returned a)
  | (tr, Raised e) => let (tr', o) := h e in (tr ++ tr', o)
  end.

Definition print (line : string) : M unit := ([Stdout line], Returned tt).

(** A call into a library: the call is recorded, then it ends as the
    library decides. *)
Definition call {A} (ev : event) (o : outcome A) : M A := ([ev], o).

Definition lift {A} (o : outcome A) : M A := ([], o).

Definition trace {A} (m : M A) : list event := fst m.
Definition result {A} (m : M A) : outcome A := snd m.

End Py.

Notation "'let*' x := m 'in' k" := (Py.bind m (fun x => k))
  (at level 10, x name, m at level 100, k at level 200).
Notation "'do*' m 'in' k" := (Py.bind m (fun _ => k))
  (at level 10, m at level 100, k at level 200).

(* ================================================================== *)
(** ** Regular expressions ([re]) *)
(* ================================================================== *)

Module re.

(** The constructs used by the patterns of [schemas.py]. *)
Inductive regex : Type :=
| Eps
| Lit (c : ascii)                  (* a literal character *)
| Cls (member : ascii -> bool)     (* [...] *)
| Seq (r1 r2 : regex)
| Opt (r : regex)                  (* (?:r)? , greedy *)
| Times (n : nat) (r : regex).     (* r{n} *)

Fixpoint lit (s : string) : regex :=
  match s with
  | EmptyString => Eps
  | String c s' => Seq (Lit c) (lit s')
  end.

(** A pattern whose single capturing group closes it, as all three
    patterns of the program do: [before(group1)]. *)
Record pattern : Type := Pattern { before : regex; group1 : regex }.

(** Backtracking matcher: [run r s k] matches [r] at the start of [s]
    and hands the rest to [k]; when [k] fails the next alternative is
    tried (an optional part is tried present first, then absent). *)
Fixpoint run {R : Type} (r : regex) (s : string) (k : string -> option R) : option R :=
  match r with
  | Eps => k s
  | Lit c =>
      match s with
      | String a s' => if Ascii.eqb a c then k s' else None
      | EmptyString => None
      end
  | Cls member =>
      match s with
      | String a s' => if member a then k s' else None
      | EmptyString => None
      end
  | Seq r1 r2 => run r1 s (fun s' => run r2 s' k)
  | Opt r1 =>
      match run r1 s k with
      | Some x => Some x
      | None => k s
      end
  | Times n r1 =>
      (fix rep (n : nat) (s : string) : option R :=
         match n with
         | O => k s
         | S n' => run r1 s (rep n')
         end) n s
  end.

(** A match object; only [group(1)] is read by the program. *)
Record Match : Type := MkMatch { group_1 : string }.

(** [re.match(p, s)]: the pattern must match at the start of [s]. *)
Definition match_ (p : pattern) (s : string) : option Match :=
  run (before p) s (fun s1 =>
    run (group1 p) s1 (fun s2 =>
      Some (MkMatch (Py.take (String.length s1 - String.length s2) s1)))).

(** [re.search(p, s)]: the first position of [s], from the left, where
    the pattern matches. *)
Fixpoint search (p : pattern) (s : string) : option Match :=
  match match_ p s with
  | Some m => Some m
  | None =>
      match s with
      | EmptyString => None
      | String _ s' => search p s'
      end
  end.

(** The words of a regular expression. *)
Fixpoint denotes (r : regex) (w : string) : Prop :=
  match r with
  | Eps => w = EmptyString
  | Lit c => w = String c EmptyString
  | Cls member => exists c, w = String c EmptyString /\ member c = true
  | Seq r1 r2 => exists w1 w2, w = w1 +:+ w2 /\ denotes r1 w1 /\ denotes r2 w2
  | Opt r1 => w = EmptyString \/ denotes r1 w
  | Times n r1 =>
      (fix rep (n : nat) (w : string) : Prop :=
         match n with
         | O => w = EmptyString
         | S n' => exists w1 w2, w = w1 +:+ w2 /\ denotes r1 w1 /\ rep n' w2
         end) n w
  end.

End re.

(* ================================================================== *)
(** ** utils.py *)
(* ================================================================== *)

Module utils.

Definition format_duration (seconds : Z) : string :=
  let hours := seconds / 3600 in
  let minutes := (seconds mod 3600) / 60 in
  let secs := seconds mod 60 in
  if hours >? 0 then
    Py.str_of_int hours +:+ "h " +:+ Py.str_of_int minutes +:+ "m " +:+ Py.str_of_int secs +:+ "s"
  else if minutes >? 0 then
    Py.str_of_int minutes +:+ "m " +:+ Py.str_of_int secs +:+ "s"
  else
    Py.str_of_int secs +:+ "s".

End utils.

(* ================================================================== *)
(** ** schemas.py *)
(* ================================================================== *)

Module schemas.

Import Py.

Definition in_range (lo hi c : ascii) : bool :=
  ((nat_of_ascii lo <=? nat_of_ascii c) && (nat_of_ascii c <=? nat_of_ascii hi))%nat.

(** The class [[a-zA-Z0-9_-]]. *)
Definition id_char (c : ascii) : bool :=
  in_range "a" "z" c || in_range "A" "Z" c || in_range "0" "9" c
  || Ascii.eqb c "_" || Ascii.eqb c "-".

(** [(?:https?://)?(?:www\.)?] *)
Definition scheme_www : re.regex :=
  re.Seq (re.Opt (re.Seq (re.lit "http") (re.Seq (re.Opt (re.Lit "s")) (re.lit "://"))))
         (re.Opt (re.lit "www.")).

(** [([a-zA-Z0-9_-]{11})] *)
Definition id_group : re.regex := re.Times 11 (re.Cls id_char).

(** [(?:https?://)?(?:www\.)?<literal>([a-zA-Z0-9_-]{11})], with the
    escaped characters of the literal written as themselves. *)
Definition url_pattern (literal : string) : re.pattern :=
  re.Pattern (re.Seq scheme_www (re.lit literal)) id_group.

Definition youtube_patterns : list re.pattern :=
  [ url_pattern "youtube.com/watch?v=";
    url_pattern "youtu.be/";
    url_pattern "youtube.com/embed/" ].

Record VideoQuery : Type := MkVideoQuery {
  url : string;
  max_transcript_length : Z;
  include_comments : bool;
  language : string
}.

(** The loop of [validate_youtube_url]: the first pattern that matches
    at the start of [v] accepts it. *)
Fixpoint validate_loop (patterns : list re.pattern) (v : string) : outcome string :=
  match patterns with
  | [] => Raised (Exc ValueError "Invalid YouTube URL format")
  | pattern :: rest =>
      match re.match_ pattern v with
      | Some _ => Returned v
      | None => validate_loop rest v
      end
  end.

Definition validate_youtube_url (v : string) : outcome string :=
  validate_loop youtube_patterns v.

Definition validate_transcript_length (v : Z) : outcome Z :=
  if v <? 100 then Raised (Exc ValueError "Transcript length must be at least 100 characters")
  else Returned v.

(** The loop of [extract_video_id]: the first pattern found anywhere in
    the URL gives the identifier. *)
Fixpoint extract_loop (patterns : list re.pattern) (u : string) : outcome string :=
  match patterns with
  | [] => Raised (Exc ValueError "Could not extract video ID from URL")
  | pattern :: rest =>
      match re.search pattern u with
      | Some m => Returned (re.group_1 m)
      | None => extract_loop rest u
      end
  end.

Definition extract_video_id (self : VideoQuery) : outcome string :=
  extract_loop youtube_patterns (url self).

(** *** Construction of a [VideoQuery]

    [VideoQuery(url=.., max_transcript_length=.., language=..,
    include_comments=..)] is run by pydantic's [BaseModel]: the
    validators of the fields are called in the order of the fields, the
    failures are collected, and one [ValidationError] listing them is
    raised when there is any. *)

Definition field_errors {A} (loc : string) (o : outcome A) : list (string * string) :=
  match o with
  | Returned _ => []
  | Raised e => [(loc, exc_str e)]
  end.

(** [str(e)] for a [ValidationError] on the model [VideoQuery]. *)
Definition validation_error_str (errors : list (string * string)) : string :=
  let n := Z.of_nat (List.length errors) in
  str_of_int n +:+ " validation error" +:+ (if n =? 1 then EmptyString else "s")
  +:+ " for VideoQuery"
  +:+ String.concat EmptyString
        (map (fun '(loc, msg) => nl +:+ loc +:+ nl +:+ "  " +:+ msg +:+ " (type=value_error)") errors).

Definition new_VideoQuery (url : string) (max_transcript_length : Z)
    (language : string) (include_comments : bool) : outcome VideoQuery :=
  match validate_youtube_url url, validate_transcript_length max_transcript_length with
  | Returned u, Returned n => Returned (MkVideoQuery u n include_comments language)
  | o1, o2 =>
      Raised (Exc ValidationError
                (validation_error_str
                   (field_errors "url" o1 ++ field_errors "max_transcript_length" o2)))
  end.

End schemas.

(* ================================================================== *)
(** ** processor.py *)
(* ================================================================== *)

Module processor.

Import Py.

(** *** The provider libraries

    The three libraries are outside the program; a run is given what
    each of their calls does.  An import that failed leaves the module
    name bound to [None]. *)

(** Fetched caption segments: the text of each (the formatter reads
    nothing else). *)
Definition FetchedTranscript : Type := list string.

(** A caption track of [youtube_transcript_api]. *)
Record Transcript : Type := MkTranscript {
  language_code : string;
  is_generated : bool;
  fetch : outcome FetchedTranscript
}.

(** The object returned by [list_transcripts]. *)
Record TranscriptList : Type := MkTranscriptList {
  find_manually_created_transcript : list string -> outcome Transcript;
  find_generated_transcript : list string -> outcome Transcript;
  iter : outcome (list Transcript)
}.

(** The list object the library builds for a video whose caption
    tracks are [tracks], in the order of their enumeration: a look-up
    returns the first track of the asked kind in the first of the
    language codes that has one, and raises [NoTranscriptFound] when
    there is none. *)
Fixpoint find_track (generated : bool) (tracks : list Transcript)
    (language_codes : list string) : outcome Transcript :=
  match language_codes with
  | [] => Raised (Exc (LibraryError "NoTranscriptFound")
                    "No transcripts were found for any of the requested language codes")
  | code :: rest =>
      match List.find (fun t => Bool.eqb (is_generated t) generated
                                && String.eqb (language_code t) code) tracks with
      | Some t => Returned t
      | None => find_track generated tracks rest
      end
  end.

Definition transcript_list_of (tracks : list Transcript) : TranscriptList :=
  MkTranscriptList (find_track false tracks) (find_track true tracks) (Returned tracks).

(** A [pytube.YouTube] object: each attribute is computed on access. *)
Record PytubeVideo : Type := MkPytubeVideo {
  yt_title : outcome value;
  yt_description : outcome value;
  yt_length : outcome value;
  yt_views : outcome value;
  yt_author : outcome value;
  yt_publish_date : outcome (option string);  (* rendered by [strftime('%Y%m%d')] *)
  yt_video_id : outcome value;
  yt_thumbnail_url : outcome value
}.

Record Env : Type := MkEnv {
  yt_dlp : option (string -> outcome (gmap string value));
  YouTube : option (string -> outcome PytubeVideo);
  YouTubeTranscriptApi : option (string -> outcome TranscriptList);
  TextFormatter : option (FetchedTranscript -> outcome string);
  tiktoken : option (string -> outcome Z)
}.

Record YouTubeProcessor : Type := MkProcessor {
  text_formatter : option (FetchedTranscript -> outcome string)
}.

Definition init (env : Env) : YouTubeProcessor := MkProcessor (TextFormatter env).

(** *** Metadata *)

Definition _get_video_info_yt_dlp (extract_info : string -> outcome (gmap string value))
    (video_id url : string) : M (gmap string value) :=
  let* info := call (CallExtractInfo url) (extract_info url) in
  ret (list_to_map
         [ ("title", get_default info "title" (VStr "Unknown Title"));
           ("description", get_default info "description" (VStr EmptyString));
           ("duration", get_default info "duration" (VInt 0));
           ("view_count", get info "view_count");
           ("channel", get_default info "uploader" (VStr "Unknown Channel"));
           ("upload_date", get info "upload_date");
           ("url", VStr url);
           ("video_id", VStr video_id);
           ("thumbnail_url", get info "thumbnail") ]).

Definition _get_video_info_pytube (YouTube : string -> outcome PytubeVideo)
    (url : string) : M (gmap string value) :=
  let* yt := call (CallPytube url) (YouTube url) in
  let* title := lift (yt_title yt) in
  let* description := lift (yt_description yt) in
  let* length := lift (yt_length yt) in
  let* views := lift (yt_views yt) in
  let* author := lift (yt_author yt) in
  let* publish_date := lift (yt_publish_date yt) in
  let* video_id := lift (yt_video_id yt) in
  let* thumbnail_url := lift (yt_thumbnail_url yt) in
  ret (list_to_map
         [ ("title", title);
           ("description", description);
           ("duration", length);
           ("view_count", views);
           ("channel", author);
           ("upload_date", match publish_date with Some d => VStr d | None => VNone end);
           ("url", VStr url);
           ("video_id", video_id);
           ("thumbnail_url", thumbnail_url) ]).

(** The record of the last tier. *)
Definition minimal_fallback (video_id url : string) : gmap string value :=
  list_to_map
    [ ("title", VStr ("Video " +:+ video_id));
      ("description", VStr "Description not available");
      ("duration", VInt 0);
      ("view_count", VNone);
      ("channel", VStr "Unknown Channel");
      ("upload_date", VNone);
      ("url", VStr url);
      ("video_id", VStr video_id);
      ("thumbnail_url",
        VStr ("https://img.youtube.com/vi/" +:+ video_id +:+ "/maxresdefault.jpg")) ].

Definition _get_video_info (env : Env) (video_id url : string) : M (gmap string value) :=
  let tier3 := ret (minimal_fallback video_id url) in
  let tier2 :=
    match YouTube env with
    | Some yt =>
        try_except (_get_video_info_pytube yt url)
          (fun e => do* print ("pytube failed: " +:+ exc_str e) in tier3)
    | None => tier3
    end in
  match yt_dlp env with
  | Some extract_info =>
      try_except (_get_video_info_yt_dlp extract_info video_id url)
        (fun e => do* print ("yt-dlp failed: " +:+ exc_str e) in tier2)
  | None => tier2
  end.

(** *** Transcript *)

Definition truncation_marker : string := nl +:+ "[Transcript truncated...]".

(** The first track of the enumeration that is not generated. *)
Fixpoint first_manual (ts : list Transcript) : option Transcript :=
  match ts with
  | [] => None
  | t :: rest => if negb (is_generated t) then Some t else first_manual rest
  end.

(** The selection of [extract_transcript]: the track, if any, and the
    detected language. *)
Definition select_transcript (transcript_list : TranscriptList) (language : string)
    : M (option Transcript * string) :=
  try_except
    (let* t := lift (find_manually_created_transcript transcript_list [language]) in
     ret (Some t, language))
    (fun _ =>
       try_except
         (let* t := lift (find_generated_transcript transcript_list [language]) in
          ret (Some t, language))
         (fun _ =>
            let* ts := lift (iter transcript_list) in
            match first_manual ts with
            | Some t => ret (Some t, language_code t)
            | None =>
                let* ts' := lift (iter transcript_list) in
                match ts' with
                | t :: _ => ret (Some t, language_code t)
                | [] => ret (None, language)
                end
            end)).

(** [if max_length and len(formatted_text) > max_length: ...] *)
Definition trim (formatted_text : string) (max_length : Z) : string :=
  if negb (max_length =? 0) && (len formatted_text >? max_length)
  then slice_to formatted_text max_length +:+ truncation_marker
  else formatted_text.

Definition extract_transcript
    (list_transcripts : string -> outcome TranscriptList)
    (format_transcript : FetchedTranscript -> outcome string)
    (video_id language : string) (max_length : Z) : M (option string * option string) :=
  try_except
    (let* transcript_list := call (CallListTranscripts video_id) (list_transcripts video_id) in
     let* sel := select_transcript transcript_list language in
     match sel with
     | (None, _) => ret (None, None)
     | (Some transcript, detected_language) =>
         let* fetched_transcript := call (CallFetch (language_code transcript)) (fetch transcript) in
         let* formatted_text := call CallFormatTranscript (format_transcript fetched_transcript) in
         ret (Some (trim formatted_text max_length), Some detected_language)
     end)
    (fun e =>
       do* print ("Transcript extraction failed: " +:+ exc_str e) in
       ret (None, None)).

Definition _get_transcript (env : Env) (self : YouTubeProcessor)
    (video_id language : string) (max_length : Z) : M (option string * option string) :=
  match YouTubeTranscriptApi env, text_formatter self with
  | Some list_transcripts, Some format_transcript =>
      extract_transcript list_transcripts format_transcript video_id language max_length
  | _, _ => ret (None, None)
  end.

Definition process_video (env : Env) (self : YouTubeProcessor) (query : schemas.VideoQuery)
    : M (gmap string value * option string * option (list string)) :=
  let* video_id := lift (schemas.extract_video_id query) in
  let* video_info := _get_video_info env video_id (schemas.url query) in
  let* tr := _get_transcript env self video_id (schemas.language query)
               (schemas.max_transcript_length query) in
  let '(transcript, detected_language) := tr in
  let video_info :=
    match detected_language with
    | Some l =>
        if truthy (VStr l) then <["detected_transcript_language" := VStr l]> video_info
        else video_info
    | None => video_info
    end in
  ret (video_info, transcript, None).

End processor.

(* ================================================================== *)
(** ** utils.py (token estimate) and main.py *)
(* ================================================================== *)

Module main.

Import Py.

(** [utils.estimate_tokens]; the encoder of [tiktoken] is a library
    call, any failure of which falls back to one token per four
    characters. *)
Definition estimate_tokens (env : processor.Env) (text : string) : Z :=
  let fallback := len text / 4 in
  match processor.tiktoken env with
  | Some encode_len =>
      match encode_len text with
      | Returned n => n
      | Raised _ => fallback
      end
  | None => fallback
  end.

(** [format_duration(video_info.get('duration', 0))]: the arithmetic
    is defined on integers only. *)
Definition duration_text (video_info : gmap string value) : outcome string :=
  match get_default video_info "duration" (VInt 0) with
  | VInt seconds => Returned (utils.format_duration seconds)
  | VNone => Raised (Exc TypeError "unsupported operand type(s) for //: 'NoneType' and 'int'")
  | VStr _ => Raised (Exc TypeError "unsupported operand type(s) for //: 'str' and 'int'")
  end.

(** [f"{v:,}"] *)
Definition comma_text (v : value) : outcome string :=
  match v with
  | VInt n => Returned (format_comma n)
  | VStr _ => Raised (Exc ValueError "Cannot specify ',' with 's'.")
  | VNone => Raised (Exc TypeError "unsupported format string passed to NoneType.__format__")
  end.

(** An item handed to [join] must be a [str]; [index] is its place in
    the list. *)
Definition join_item (index : nat) (v : value) : outcome string :=
  match v with
  | VStr s => Returned s
  | VInt _ =>
      Raised (Exc TypeError ("sequence item " +:+ str_of_int (Z.of_nat index)
                             +:+ ": expected str instance, int found"))
  | VNone =>
      Raised (Exc TypeError ("sequence item " +:+ str_of_int (Z.of_nat index)
                             +:+ ": expected str instance, NoneType found"))
  end.

(** The lines of the metadata block, from [### Metadata] to the URL. *)
Definition metadata_lines (video_info : gmap string value) : outcome (list string) :=
  obind (duration_text video_info) (fun duration =>
  obind (if truthy (get video_info "view_count")
         then obind (comma_text (get video_info "view_count"))
                (fun n => Returned ["- **Views**: " +:+ n])
         else Returned []) (fun views =>
  let upload :=
    if truthy (get video_info "upload_date")
    then ["- **Upload Date**: " +:+ str (get video_info "upload_date")]
    else [] in
  Returned
    ([ "### Metadata" +:+ nl;
       "- **Video ID**: " +:+ str (get_default video_info "video_id" (VStr "N/A"));
       "- **Channel**: " +:+ str (get_default video_info "channel" (VStr "N/A"));
       "- **Duration**: " +:+ duration ]
     ++ views ++ upload
     ++ [ "- **URL**: " +:+ str (get_default video_info "url" (VStr "N/A")) +:+ nl ]))).

(** The description section; [at_] is the number of lines before it. *)
Definition description_lines (video_info : gmap string value) (at_ : nat)
    : outcome (list string) :=
  if truthy (get video_info "description")
  then obind (join_item (S at_) (get video_info "description"))
         (fun d => Returned [ "### Description" +:+ nl; d; nl ])
  else Returned [].

Definition transcript_lines (video_info : gmap string value) (transcript : option string)
    : list string :=
  match transcript with
  | Some text =>
      if truthy (VStr text) then
        [ "### Transcript" +:+ nl ]
        ++ (if truthy (get video_info "detected_transcript_language")
            then [ "*Language: " +:+ str (get video_info "detected_transcript_language")
                   +:+ "*" +:+ nl ]
            else [])
        ++ [ text ]
      else [ "### Transcript" +:+ nl; "*Transcript not available for this video.*" +:+ nl ]
  | None => [ "### Transcript" +:+ nl; "*Transcript not available for this video.*" +:+ nl ]
  end.

(** The list [output] of [format_output], before it is joined. *)
Definition output_lines (video_info : gmap string value) (transcript : option string)
    : outcome (list string) :=
  obind (metadata_lines video_info) (fun metadata =>
  obind (description_lines video_info (2 + List.length metadata)) (fun description =>
  Returned
    ([ "# YouTube Video Documentation" +:+ nl;
       "## " +:+ str (get_default video_info "title" (VStr "Unknown Title")) +:+ nl ]
     ++ metadata ++ description ++ transcript_lines video_info transcript))).

Definition format_output (video_info : gmap string value) (transcript : option string)
    : outcome string :=
  obind (output_lines video_info transcript) (fun output => Returned (join nl output)).

(** *** The request handler *)

Inductive context : Type :=
| ResultPage (video_info : gmap string value) (output : string) (token_count : Z)
    (transcript_available : bool)
| ErrorPage (error : string).

Record TemplateResponse : Type := MkResponse {
  template : string;
  page : context;
  status_code : Z
}.

(** [process_video] of [main.py], behind the rate limiter; [processor]
    is the instance created when the module is loaded. *)
Definition process_video (env : processor.Env) (url : string)
    (max_transcript_length : Z) (language : string) : M TemplateResponse :=
  let the_processor := processor.init env in
  try_except
    (let* query := lift (schemas.new_VideoQuery url max_transcript_length language false) in
     let* r := processor.process_video env the_processor query in
     let '(video_info, transcript, _) := r in
     let* output := lift (format_output video_info transcript) in
     let token_count := estimate_tokens env output in
     ret (MkResponse "result.html"
            (ResultPage video_info output token_count
               (match transcript with Some _ => true | None => false end))
            200))
    (fun e =>
       if is_ValueError e
       then ret (MkResponse "index.html" (ErrorPage (exc_str e)) 400)
       else ret (MkResponse "index.html"
                   (ErrorPage ("Error processing video: " +:+ exc_str e)) 500)).

(** [rate_limit_handler]: the answer of the application to
    [RateLimitExceeded]. *)
Definition rate_limit_handler : TemplateResponse :=
  MkResponse "index.html" (ErrorPage "Rate limit exceeded. Please try again later.") 429.

(** The route [/process]: [process_video] under
    [@limiter.limit("10/minute")].  The limiter counts the requests of a
    client address within the minute, with its own store and clock;
    [exceeded] is its verdict on this request.  Over the quota it raises
    [RateLimitExceeded] before the body runs, and the application
    answers with [rate_limit_handler]. *)
Definition process_route (env : processor.Env) (exceeded : bool) (url : string)
    (max_transcript_length : Z) (language : string) : M TemplateResponse :=
  if exceeded then ret rate_limit_handler
  else process_video env url max_transcript_length language.

End main.

(* ================================================================== *)
(** ** The vocabulary of the specification *)
(* ================================================================== *)

Module Spec.

Import processor.

(** *** The caption selection *)

Definition manual_in (language : string) (t : Transcript) : bool :=
  negb (is_generated t) && String.eqb (language_code t) language.

Definition generated_in (language : string) (t : Transcript) : bool :=
  is_generated t && String.eqb (language_code t) language.

(** The four attempts of the specification, in its order; the result is
    the chosen track and the detected language. *)
Definition selection_policy (tracks : list Transcript) (language : string)
    : option (Transcript * string) :=
  match List.find (manual_in language) tracks with
  | Some t => Some (t, language)
  | None =>
      match List.find (generated_in language) tracks with
      | Some t => Some (t, language)
      | None =>
          match List.find (fun t => negb (is_generated t)) tracks with
          | Some t => Some (t, language_code t)
          | None =>
              match tracks with
              | t :: _ => Some (t, language_code t)
              | [] => None
              end
          end
      end
  end.

(** *** The recognized URL shapes

    A URL has a recognized shape when it starts with an optional scheme,
    an optional [www.], the host and path of the watch page, of the
    short link or of the embed page, and then the identifier: eleven
    characters among letters, digits, underscore and hyphen.  Anything
    may follow. *)

Definition schemes : list string := [EmptyString; "http://"; "https://"].

Definition wwws : list string := [EmptyString; "www."].

Definition watch_page : string := "youtube.com/watch?v=".
Definition short_link : string := "youtu.be/".
Definition embed_page : string := "youtube.com/embed/".

Definition hosts : list string := [watch_page; short_link; embed_page].

Definition id_alphabet : list ascii :=
  list_ascii_of_string "abcdefghijklmnopqrstuvwxyzABCDEFGHIJKLMNOPQRSTUVWXYZ0123456789_-".

Definition video_id_token (id : string) : Prop :=
  String.length id = 11%nat
  /\ Forall (fun c => In c id_alphabet) (list_ascii_of_string id).

(** [u] has the shape of [host] with the identifier [id]. *)
Definition has_shape (host id u : string) : Prop :=
  exists scheme www rest,
    In scheme schemes /\ In www wwws /\ video_id_token id
    /\ u = scheme +:+ www +:+ host +:+ id +:+ rest.

Definition recognized (u : string) : Prop :=
  exists host id, In host hosts /\ has_shape host id u.

(** A recognized shape starts somewhere in [u]. *)
Definition contains_shape (u : string) : Prop :=
  exists before_ rest, u = before_ +:+ rest /\ recognized rest.

(** [needle] is a part of [text]. *)
Definition contains (needle text : string) : Prop :=
  exists before_ after_, text = before_ +:+ needle +:+ after_.

(** The test of [contains], from the left. *)
Fixpoint contains_b (needle text : string) : bool :=
  String.prefix needle text
  || match text with
     | EmptyString => false
     | String _ rest => contains_b needle rest
     end.

(** The shape of [host] starts somewhere in [u]. *)
Definition occurs (host u : string) : Prop :=
  exists before_ rest id, u = before_ +:+ rest /\ has_shape host id rest.

(** *** The metadata record

    A field is present when the dictionary has it with a value other
    than [None]. *)
Definition present (video_info : gmap string Py.value) (key : string) : Prop :=
  exists v, video_info !! key = Some v /\ v <> Py.VNone.

(** Some line starts with [label]. *)
Definition has_line (label : string) (lines : list string) : Prop :=
  exists line, In line lines /\ String.prefix label line = true.

(** The types of the data model for the fields the metadata block and
    the description format: an integer duration, an integer or absent
    view count, a string or absent description. *)
Definition schema_typed (video_info : gmap string Py.value) : Prop :=
  (exists seconds, Py.get_default video_info "duration" (Py.VInt 0) = Py.VInt seconds)
  /\ (Py.get video_info "view_count" = Py.VNone
      \/ exists views, Py.get video_info "view_count" = Py.VInt views)
  /\ (Py.get video_info "description" = Py.VNone
      \/ exists text, Py.get video_info "description" = Py.VStr text).

(** A string of decimal digits. *)
Definition is_digit (c : ascii) : bool := schemas.in_range "0" "9" c.

Fixpoint all_digits (s : string) : bool :=
  match s with
  | EmptyString => true
  | String c rest => is_digit c && all_digits rest
  end.

(** The answer of the handler to an exception that reaches it. *)
Definition error_response (e : Py.exception) : main.TemplateResponse :=
  if Py.is_ValueError e
  then main.MkResponse "index.html" (main.ErrorPage (Py.exc_str e)) 400
  else main.MkResponse "index.html"
         (main.ErrorPage ("Error processing video: " +:+ Py.exc_str e)) 500.

(** The keys of a metadata record. *)
Definition record_keys : list string :=
  [ "title"; "description"; "duration"; "view_count"; "channel"; "upload_date";
    "url"; "video_id"; "thumbnail_url" ].

(** A tier of the metadata chain is down when its library is not
    installed or its extraction raises. *)
Definition tier1_down (env : Env) (video_id url : string) : Prop :=
  match yt_dlp env with
  | None => True
  | Some extract_info =>
      exists e, Py.result (_get_video_info_yt_dlp extract_info video_id url) = Py.Raised e
  end.

Definition tier2_down (env : Env) (url : string) : Prop :=
  match YouTube env with
  | None => True
  | Some yt => exists e, Py.result (_get_video_info_pytube yt url) = Py.Raised e
  end.

End Spec.

(* ================================================================== *)
(** ** Sample runs *)
(* ================================================================== *)

Module Samples.

Import Py processor.

Definition rick : string := "dQw4w9WgXcQ".

Definition en_manual : Transcript :=
  MkTranscript "en" false (Returned ["never gonna"; "give you up"]).
Definition en_auto : Transcript := MkTranscript "en" true (Returned ["never gonna"]).
Definition de_manual : Transcript := MkTranscript "de" false (Returned ["niemals"]).
Definition fr_auto : Transcript := MkTranscript "fr" true (Returned ["jamais"]).
Definition ja_broken : Transcript :=
  MkTranscript "ja" true (Raised (Exc (LibraryError "TranscriptsDisabled") "disabled")).

(** The text formatter of the caption library: the segments one per
    line. *)
Definition text_of (fetched : FetchedTranscript) : outcome string :=
  Returned (join nl fetched).

Definition broken_formatter (fetched : FetchedTranscript) : outcome string :=
  Raised (Exc TypeError "bad segment").

(** Only the caption library is installed, and the video has the given
    tracks. *)
Definition captions (tracks : list Transcript) : Env :=
  MkEnv None None (Some (fun _ => Returned (transcript_list_of tracks)))
        (Some text_of) None.

(** Nothing is installed. *)
Definition bare : Env := MkEnv None None None None None.

(** Everything is installed and every provider call fails. *)
Definition offline : Env :=
  MkEnv (Some (fun _ => Raised (Exc (LibraryError "DownloadError") "Video unavailable")))
        (Some (fun _ => Raised (Exc (LibraryError "RegexMatchError") "regex_search")))
        (Some (fun _ => Raised (Exc (LibraryError "TranscriptsDisabled") "disabled")))
        (Some text_of) None.

(** A manual English track of 120 characters once formatted. *)
Definition en_long : Transcript :=
  MkTranscript "en" false (Returned (repeat "0123456789" 11)).

(** URLs. *)
Definition watch_url : string := "https://www.youtube.com/watch?v=dQw4w9WgXcQ".
Definition mobile_url : string := "https://m.youtube.com/watch?v=dQw4w9WgXcQ".
Definition other_site : string := "https://vimeo.com/148751763".
Definition two_tokens : string :=
  "https://youtu.be/dQw4w9WgXcQ?u=youtube.com/watch?v=AAAAAAAAAAA".

Definition query (url : string) : schemas.VideoQuery :=
  schemas.MkVideoQuery url 10000 false "en".

(** The record of a video that nobody has watched yet. *)
Definition zero_views : gmap string value :=
  <["view_count" := VInt 0]> (minimal_fallback rick watch_url).

(** A record as the first tier fills it. *)
Definition full_record : gmap string value :=
  list_to_map
    [ ("title", VStr "Never Gonna Give You Up");
      ("description", VStr "The official video");
      ("duration", VInt 213);
      ("view_count", VInt 1234567890);
      ("channel", VStr "Rick Astley");
      ("upload_date", VStr "20091025");
      ("url", VStr watch_url);
      ("video_id", VStr rick);
      ("thumbnail_url", VNone) ].

Definition short_url : string := "http://www.youtu.be/dQw4w9WgXcQ?t=42".
Definition embed_url : string := "youtube.com/embed/dQw4w9WgXcQ".

(** yt-dlp is installed and reports a live stream: no duration yet. *)
Definition live_info : gmap string value :=
  list_to_map [ ("title", VStr "Live now"); ("duration", VNone) ].

Definition live_stream : Env :=
  MkEnv (Some (fun _ => Returned live_info)) None None None None.

(** A manual track without any segment. *)
Definition en_empty : Transcript := MkTranscript "en" false (Returned []).

(** A track list whose enumeration fails. *)
Definition unlistable : TranscriptList :=
  MkTranscriptList
    (fun _ => Raised (Exc (LibraryError "NoTranscriptFound") "none"))
    (fun _ => Raised (Exc (LibraryError "NoTranscriptFound") "none"))
    (Raised (Exc (LibraryError "ParseError") "bad listing")).

End Samples.

(* ================================================================== *)
(** ** Properties *)
(* ================================================================== *)

(** *** Strings *)

#[local] Arguments String.append !s1 s2 : simpl nomatch.

Section StringFacts.

Lemma length_app (a b : string) :
  String.length (a +:+ b) = (String.length a + String.length b)%nat.
Proof. induction a as [|c a IH]; simpl; [reflexivity | now rewrite IH]. Qed.

Lemma app_assoc_str (a b c : string) : (a +:+ b) +:+ c = a +:+ (b +:+ c).
Proof. induction a as [|x a IH]; simpl; [reflexivity | now rewrite IH]. Qed.

Lemma app_empty_r (a : string) : a +:+ EmptyString = a.
Proof. induction a as [|x a IH]; simpl; [reflexivity | now rewrite IH]. Qed.

Lemma len_app (a b : string) : Py.len (a +:+ b) = Py.len a + Py.len b.
Proof. unfold Py.len. rewrite length_app. lia. Qed.

Lemma len_nonneg (a : string) : 0 <= Py.len a.
Proof. unfold Py.len. lia. Qed.

Lemma take_length (n : nat) (s : string) :
  String.length (Py.take n s) = Nat.min n (String.length s).
Proof.
  revert s. induction n as [|n IH]; intros [|c s]; simpl; try reflexivity.
  now rewrite IH.
Qed.

(** [take n s] is a prefix of [s]. *)
Lemma take_prefix (n : nat) (s : string) : exists rest, s = Py.take n s +:+ rest.
Proof.
  revert s. induction n as [|n IH]; intros s.
  - exists s. now destruct s.
  - destruct s as [|c s]; [now exists EmptyString |].
    destruct (IH s) as [rest Hrest]. exists rest. simpl. now rewrite <- Hrest.
Qed.

Lemma take_app_exact (w rest : string) : Py.take (String.length w) (w +:+ rest) = w.
Proof. induction w as [|c w IH]; simpl; [now destruct rest | now rewrite IH]. Qed.

(** The first [n] characters of a string that has at least [n]. *)
Lemma slice_to_first (s : string) (n : Z) :
  0 <= n <= Py.len s ->
  exists rest, s = Py.slice_to s n +:+ rest /\ Py.len (Py.slice_to s n) = n.
Proof.
  intros [Hn Hle]. unfold Py.slice_to.
  destruct (Z.ltb_spec n 0) as [Hneg|_]; [lia |].
  destruct (take_prefix (Z.to_nat n) s) as [rest Hrest].
  exists rest. split; [exact Hrest |].
  unfold Py.len in *. rewrite take_length. lia.
Qed.

End StringFacts.

(** *** The monad of effects *)

Section MonadFacts.

Context {A B : Type}.

Lemma result_bind (m : Py.M A) (f : A -> Py.M B) :
  Py.result (Py.bind m f) =
  match Py.result m with
  | Py.Returned a => Py.result (f a)
  | Py.Raised e => Py.Raised e
  end.
Proof.
  destruct m as [tr [a|e]]; simpl; [| reflexivity].
  now destruct (f a).
Qed.

Lemma trace_bind (m : Py.M A) (f : A -> Py.M B) :
  Py.trace (Py.bind m f) =
  match Py.result m with
  | Py.Returned a => Py.trace m ++ Py.trace (f a)
  | Py.Raised e => Py.trace m
  end.
Proof.
  destruct m as [tr [a|e]]; simpl; [| reflexivity].
  now destruct (f a).
Qed.

Lemma result_try_except (m : Py.M A) (h : Py.exception -> Py.M A) :
  Py.result (Py.try_except m h) =
  match Py.result m with
  | Py.Returned a => Py.Returned a
  | Py.Raised e => Py.result (h e)
  end.
Proof.
  destruct m as [tr [a|e]]; simpl; [reflexivity |].
  now destruct (h e).
Qed.

Lemma result_call (ev : Py.event) (o : Py.outcome A) : Py.result (Py.call ev o) = o.
Proof. reflexivity. Qed.

Lemma result_lift (o : Py.outcome A) : Py.result (Py.lift o) = o.
Proof. reflexivity. Qed.

Lemma result_ret (a : A) : Py.result (Py.ret a) = Py.Returned a.
Proof. reflexivity. Qed.

End MonadFacts.

(** *** Duration formatting *)

Section Duration.

Import utils.

(** For a duration that is not negative the three components are the
    digits of the duration in the mixed base 60, 60. *)
Lemma duration_components (seconds : Z) :
  0 <= seconds ->
  let hours := seconds / 3600 in
  let minutes := (seconds mod 3600) / 60 in
  let secs := seconds mod 60 in
  seconds = 3600 * hours + 60 * minutes + secs
  /\ 0 <= hours /\ 0 <= minutes < 60 /\ 0 <= secs < 60.
Proof.
  intros H hours minutes secs. subst hours minutes secs.
  pose proof (Z.div_mod seconds 3600 ltac:(lia)) as H1.
  pose proof (Z.mod_pos_bound seconds 3600 ltac:(lia)) as H2.
  pose proof (Z.div_mod (seconds mod 3600) 60 ltac:(lia)) as H3.
  pose proof (Z.mod_pos_bound (seconds mod 3600) 60 ltac:(lia)) as H4.
  assert (H5 : (seconds mod 3600) mod 60 = seconds mod 60).
  { symmetry. rewrite (Z.div_mod seconds 3600) at 1 by lia.
    replace (3600 * (seconds / 3600) + seconds mod 3600)
      with (seconds mod 3600 + (60 * (seconds / 3600)) * 60) by lia.
    apply Z.mod_add. lia. }
  pose proof (Z.div_pos seconds 3600 H ltac:(lia)) as H6.
  pose proof (Z.div_pos (seconds mod 3600) 60 ltac:(lia) ltac:(lia)) as H7.
  assert (seconds mod 3600 / 60 < 60) by (apply Z.div_lt_upper_bound; lia).
  lia.
Qed.

(** C8. For every integer [seconds], with hours = seconds div 3600,
    minutes = (seconds mod 3600) div 60 and secs = seconds mod 60,
    [format_duration] gives "{h}h {m}m {s}s" when hours > 0, otherwise
    "{m}m {s}s" when minutes > 0, otherwise "{s}s"; and 0, 45, 125, 3600
    and 3725 give "0s", "45s", "2m 5s", "1h 0m 0s" and "1h 2m 5s". *)
Theorem format_duration_rule (seconds : Z) :
  let hours := seconds / 3600 in
  let minutes := (seconds mod 3600) / 60 in
  let secs := seconds mod 60 in
  (hours > 0 ->
     format_duration seconds =
     Py.str_of_int hours +:+ "h " +:+ Py.str_of_int minutes +:+ "m "
       +:+ Py.str_of_int secs +:+ "s")
  /\ (~ hours > 0 -> minutes > 0 ->
     format_duration seconds =
     Py.str_of_int minutes +:+ "m " +:+ Py.str_of_int secs +:+ "s")
  /\ (~ hours > 0 -> ~ minutes > 0 ->
     format_duration seconds = Py.str_of_int secs +:+ "s")
  /\ format_duration 0 = "0s"
  /\ format_duration 45 = "45s"
  /\ format_duration 125 = "2m 5s"
  /\ format_duration 3600 = "1h 0m 0s"
  /\ format_duration 3725 = "1h 2m 5s".
Proof.
  intros hours minutes secs. unfold format_duration. fold hours minutes secs.
  repeat split; try (vm_compute; reflexivity).
  - intros Hh. destruct (Z.gtb_spec hours 0); [reflexivity | lia].
  - intros Hh Hm. destruct (Z.gtb_spec hours 0); [lia |].
    destruct (Z.gtb_spec minutes 0); [reflexivity | lia].
  - intros Hh Hm. destruct (Z.gtb_spec hours 0); [lia |].
    destruct (Z.gtb_spec minutes 0); [lia | reflexivity].
Qed.

Lemma format_duration_rule_witness :
  utils.format_duration 7384 = "2h 3m 4s"%string
  /\ utils.format_duration 185 = "3m 5s"%string
  /\ utils.format_duration 59 = "59s"%string.
Proof.
  destruct (format_duration_rule 7384) as (H1 & _).
  destruct (format_duration_rule 185) as (_ & H2 & _).
  destruct (format_duration_rule 59) as (_ & _ & H3 & _).
  split; [| split].
  - apply H1. reflexivity.
  - apply H2; [intros H; discriminate H | reflexivity].
  - apply H3; intros H; discriminate H.
Defined.

End Duration.

(** *** The transcript fetcher *)

Section Transcript.

Import processor.

Variables (video_id language : string) (max_length : Z).

Lemma marker_length : Py.len truncation_marker = 26.
Proof. reflexivity. Qed.

(** How [extract_transcript] ends, stage by stage. *)
Lemma extract_transcript_result list_transcripts format_transcript :
  Py.result (extract_transcript list_transcripts format_transcript video_id language max_length) =
  match list_transcripts video_id with
  | Py.Raised _ => Py.Returned (None, None)
  | Py.Returned tl =>
      match Py.result (select_transcript tl language) with
      | Py.Raised _ => Py.Returned (None, None)
      | Py.Returned (None, _) => Py.Returned (None, None)
      | Py.Returned (Some t, detected) =>
          match fetch t with
          | Py.Raised _ => Py.Returned (None, None)
          | Py.Returned fetched =>
              match format_transcript fetched with
              | Py.Raised _ => Py.Returned (None, None)
              | Py.Returned text => Py.Returned (Some (trim text max_length), Some detected)
              end
          end
      end
  end.
Proof.
  unfold extract_transcript. rewrite result_try_except, result_bind, result_call.
  destruct (list_transcripts video_id) as [tl|e]; [| reflexivity].
  rewrite result_bind.
  destruct (Py.result (select_transcript tl language)) as [[[t|] detected]|e];
    try reflexivity.
  rewrite result_bind, result_call.
  destruct (fetch t) as [fetched|e]; [| reflexivity].
  rewrite result_bind, result_call.
  destruct (format_transcript fetched) as [text|e]; reflexivity.
Qed.

(** What [_get_transcript] returns, in all cases. *)
Lemma get_transcript_result env self :
  Py.result (_get_transcript env self video_id language max_length) =
  match YouTubeTranscriptApi env, text_formatter self with
  | Some list_transcripts, Some format_transcript =>
      Py.result (extract_transcript list_transcripts format_transcript
                   video_id language max_length)
  | _, _ => Py.Returned (None, None)
  end.
Proof.
  unfold _get_transcript.
  destruct (YouTubeTranscriptApi env), (text_formatter self); reflexivity.
Qed.

Lemma trim_short text : Py.len text <= max_length -> trim text max_length = text.
Proof.
  intros H. unfold trim.
  destruct (Z.gtb_spec (Py.len text) max_length); [lia |].
  now rewrite andb_false_r.
Qed.

Lemma trim_long text :
  0 < max_length < Py.len text ->
  trim text max_length = Py.slice_to text max_length +:+ truncation_marker.
Proof.
  intros H. unfold trim.
  destruct (Z.gtb_spec (Py.len text) max_length); [| lia].
  destruct (Z.eqb_spec max_length 0); [lia | reflexivity].
Qed.

(** C2. [_get_transcript] never raises; it returns [(None, None)] when
    the caption library or the formatter is unavailable, and also when
    an exception comes out of the retrieval of the track list, of the
    selection, of the fetch or of the formatting: the same pair on both
    paths. *)
Theorem get_transcript_absorbs_failures env self :
  (exists r, Py.result (_get_transcript env self video_id language max_length) = Py.Returned r)
  /\ (YouTubeTranscriptApi env = None \/ text_formatter self = None ->
      _get_transcript env self video_id language max_length = ([], Py.Returned (None, None)))
  /\ (forall list_transcripts format_transcript,
      YouTubeTranscriptApi env = Some list_transcripts ->
      text_formatter self = Some format_transcript ->
      (forall e, list_transcripts video_id = Py.Raised e ->
         Py.result (_get_transcript env self video_id language max_length)
         = Py.Returned (None, None))
      /\ (forall tl e,
         list_transcripts video_id = Py.Returned tl ->
         Py.result (select_transcript tl language) = Py.Raised e ->
         Py.result (_get_transcript env self video_id language max_length)
         = Py.Returned (None, None))
      /\ (forall tl t detected e,
         list_transcripts video_id = Py.Returned tl ->
         Py.result (select_transcript tl language) = Py.Returned (Some t, detected) ->
         fetch t = Py.Raised e ->
         Py.result (_get_transcript env self video_id language max_length)
         = Py.Returned (None, None))
      /\ (forall tl t detected fetched e,
         list_transcripts video_id = Py.Returned tl ->
         Py.result (select_transcript tl language) = Py.Returned (Some t, detected) ->
         fetch t = Py.Returned fetched ->
         format_transcript fetched = Py.Raised e ->
         Py.result (_get_transcript env self video_id language max_length)
         = Py.Returned (None, None))).
Proof.
  split; [| split].
  - rewrite get_transcript_result.
    destruct (YouTubeTranscriptApi env) as [l|], (text_formatter self) as [f|]; eauto.
    rewrite extract_transcript_result.
    destruct (l video_id) as [tl|]; eauto.
    destruct (Py.result (select_transcript tl language)) as [[[t|] d]|]; eauto.
    destruct (fetch t) as [ft|]; eauto.
    destruct (f ft); eauto.
  - unfold _get_transcript. intros [H|H]; rewrite H; [reflexivity |].
    now destruct (YouTubeTranscriptApi env).
  - intros l f Hl Hf.
    rewrite get_transcript_result, Hl, Hf, extract_transcript_result.
    repeat split.
    + intros e He. now rewrite He.
    + intros tl e Htl Hs. now rewrite Htl, Hs.
    + intros tl t d e Htl Hs Hfetch. now rewrite Htl, Hs, Hfetch.
    + intros tl t d ft e Htl Hs Hfetch Hfmt. now rewrite Htl, Hs, Hfetch, Hfmt.
Qed.

(** C3. With [max_length >= 100], when a track is selected, fetched and
    formatted to the text [T]: the transcript returned is [T] itself if
    [len(T) <= max_length], and otherwise the first [max_length]
    characters of [T] followed by the marker
    "\n[Transcript truncated...]". *)
Theorem transcript_truncation env self list_transcripts format_transcript
    tl t detected fetched T :
  100 <= max_length ->
  YouTubeTranscriptApi env = Some list_transcripts ->
  text_formatter self = Some format_transcript ->
  list_transcripts video_id = Py.Returned tl ->
  Py.result (select_transcript tl language) = Py.Returned (Some t, detected) ->
  fetch t = Py.Returned fetched ->
  format_transcript fetched = Py.Returned T ->
  (Py.len T <= max_length ->
     Py.result (_get_transcript env self video_id language max_length)
     = Py.Returned (Some T, Some detected))
  /\ (Py.len T > max_length ->
     exists first rest,
       T = first +:+ rest /\ Py.len first = max_length
       /\ Py.result (_get_transcript env self video_id language max_length)
          = Py.Returned (Some (first +:+ Py.nl +:+ "[Transcript truncated...]"),
                         Some detected)).
Proof.
  intros Hmax Hl Hf Htl Hs Hfetch Hfmt.
  rewrite get_transcript_result, Hl, Hf, extract_transcript_result, Htl, Hs, Hfetch, Hfmt.
  split; intros Hlen.
  - now rewrite trim_short.
  - destruct (slice_to_first T max_length) as [rest [Hrest Hfirst]]; [lia |].
    exists (Py.slice_to T max_length), rest.
    split; [exact Hrest |]. split; [exact Hfirst |].
    rewrite trim_long by lia. reflexivity.
Qed.

(** C10. With [max_length >= 100], a text returned by [_get_transcript]
    has at most [max_length + 26] characters, 26 being the length of the
    marker: either it is the formatted text, of length at most
    [max_length], or it is a truncated text of length exactly
    [max_length + 26]. *)
Theorem transcript_length_bound env self text detected :
  100 <= max_length ->
  Py.result (_get_transcript env self video_id language max_length)
    = Py.Returned (Some text, detected) ->
  Py.len truncation_marker = 26
  /\ Py.len text <= max_length + 26
  /\ (Py.len text <= max_length \/ Py.len text = max_length + 26).
Proof.
  intros Hmax. rewrite get_transcript_result.
  destruct (YouTubeTranscriptApi env) as [l|], (text_formatter self) as [f|];
    try discriminate.
  rewrite extract_transcript_result.
  destruct (l video_id) as [tl|]; try discriminate.
  destruct (Py.result (select_transcript tl language)) as [[[t|] d]|]; try discriminate.
  destruct (fetch t) as [ft|]; try discriminate.
  destruct (f ft) as [T|]; try discriminate.
  intros [= <- _].
  split; [reflexivity |].
  destruct (Z.le_gt_cases (Py.len T) max_length) as [Hle|Hgt].
  - rewrite trim_short by exact Hle. lia.
  - rewrite trim_long by lia.
    destruct (slice_to_first T max_length) as [rest [_ Hfirst]]; [lia |].
    rewrite len_app, Hfirst, marker_length. lia.
Qed.

Lemma find_track_manual tracks :
  find_track false tracks [language] =
  match List.find (Spec.manual_in language) tracks with
  | Some t => Py.Returned t
  | None => Py.Raised (Py.Exc (Py.LibraryError "NoTranscriptFound")
              "No transcripts were found for any of the requested language codes")
  end.
Proof.
  simpl. induction tracks as [|t ts IH]; simpl; [reflexivity |].
  unfold Spec.manual_in at 1. destruct (is_generated t); simpl; [exact IH |].
  destruct (String.eqb (language_code t) language); [reflexivity | exact IH].
Qed.

Lemma find_track_generated tracks :
  find_track true tracks [language] =
  match List.find (Spec.generated_in language) tracks with
  | Some t => Py.Returned t
  | None => Py.Raised (Py.Exc (Py.LibraryError "NoTranscriptFound")
              "No transcripts were found for any of the requested language codes")
  end.
Proof.
  simpl. induction tracks as [|t ts IH]; simpl; [reflexivity |].
  unfold Spec.generated_in at 1. destruct (is_generated t); simpl; [| exact IH].
  destruct (String.eqb (language_code t) language); [reflexivity | exact IH].
Qed.

Lemma first_manual_find tracks :
  first_manual tracks = List.find (fun t => negb (is_generated t)) tracks.
Proof.
  induction tracks as [|t ts IH]; simpl; [reflexivity |].
  destruct (negb (is_generated t)); [reflexivity | exact IH].
Qed.

(** On the list object of the library the selection of the code is the
    policy of the specification. *)
Lemma select_transcript_policy tracks :
  select_transcript (transcript_list_of tracks) language =
  ([], Py.Returned
         match Spec.selection_policy tracks language with
         | Some (t, detected) => (Some t, detected)
         | None => (None, language)
         end).
Proof.
  unfold select_transcript, Spec.selection_policy. simpl iter.
  change (find_manually_created_transcript (transcript_list_of tracks))
    with (find_track false tracks).
  change (find_generated_transcript (transcript_list_of tracks))
    with (find_track true tracks).
  rewrite find_track_manual, find_track_generated.
  destruct (List.find (Spec.manual_in language) tracks); [reflexivity |].
  destruct (List.find (Spec.generated_in language) tracks); [reflexivity |].
  unfold Py.try_except, Py.bind, Py.lift. rewrite first_manual_find.
  destruct (List.find (fun t => negb (is_generated t)) tracks); [reflexivity |].
  destruct tracks; reflexivity.
Qed.

(** C7. On any set of caption tracks the selection tries, in order, a
    manual track in the requested language, a generated track in the
    requested language, any manual track, any track (the first
    enumerated); the detected language is the requested one in the
    first two cases and the language code of the chosen track in the
    last two; with no track at all the result is [(None, None)].  The
    chosen track is the one that is fetched. *)
Theorem caption_selection_policy env self list_transcripts format_transcript tracks :
  YouTubeTranscriptApi env = Some list_transcripts ->
  text_formatter self = Some format_transcript ->
  list_transcripts video_id = Py.Returned (transcript_list_of tracks) ->
  Py.result (select_transcript (transcript_list_of tracks) language) =
    Py.Returned match Spec.selection_policy tracks language with
                | Some (t, detected) => (Some t, detected)
                | None => (None, language)
                end
  /\ Py.result (_get_transcript env self video_id language max_length) =
     match Spec.selection_policy tracks language with
     | None => Py.Returned (None, None)
     | Some (t, detected) =>
         match fetch t with
         | Py.Raised _ => Py.Returned (None, None)
         | Py.Returned fetched =>
             match format_transcript fetched with
             | Py.Raised _ => Py.Returned (None, None)
             | Py.Returned text =>
                 Py.Returned (Some (trim text max_length), Some detected)
             end
         end
     end
  /\ (tracks = [] ->
      Py.result (_get_transcript env self video_id language max_length)
      = Py.Returned (None, None)).
Proof.
  intros Hl Hf Htl.
  assert (Hres : Py.result (_get_transcript env self video_id language max_length) =
     match Spec.selection_policy tracks language with
     | None => Py.Returned (None, None)
     | Some (t, detected) =>
         match fetch t with
         | Py.Raised _ => Py.Returned (None, None)
         | Py.Returned fetched =>
             match format_transcript fetched with
             | Py.Raised _ => Py.Returned (None, None)
             | Py.Returned text =>
                 Py.Returned (Some (trim text max_length), Some detected)
             end
         end
     end).
  { rewrite get_transcript_result, Hl, Hf, extract_transcript_result, Htl.
    rewrite select_transcript_policy. simpl Py.result.
    destruct (Spec.selection_policy tracks language) as [[t d]|]; reflexivity. }
  split; [now rewrite select_transcript_policy |].
  split; [exact Hres |].
  intros ->. rewrite Hres. reflexivity.
Qed.

End Transcript.

Section TranscriptRuns.

Import processor Samples.

Lemma get_transcript_absorbs_failures_witness :
  _get_transcript bare (init bare) rick "en" 10000 = ([], Py.Returned (None, None))
  /\ Py.result (_get_transcript offline (init offline) rick "en" 10000)
     = Py.Returned (None, None)
  /\ Py.result (_get_transcript (captions [ja_broken]) (init (captions [ja_broken]))
                  rick "en" 10000)
     = Py.Returned (None, None).
Proof.
  destruct (get_transcript_absorbs_failures rick "en" 10000 bare (init bare))
    as (_ & Hbare & _).
  destruct (get_transcript_absorbs_failures rick "en" 10000 offline (init offline))
    as (_ & _ & Hoff).
  destruct (get_transcript_absorbs_failures rick "en" 10000
              (captions [ja_broken]) (init (captions [ja_broken])))
    as (_ & _ & Hja).
  split; [| split].
  - apply Hbare. left. reflexivity.
  - destruct (Hoff _ _ eq_refl eq_refl) as (Hlist & _).
    eapply Hlist. reflexivity.
  - destruct (Hja _ _ eq_refl eq_refl) as (_ & _ & Hfetch & _).
    eapply (Hfetch _ ja_broken "ja"); reflexivity.
Defined.

Lemma transcript_truncation_witness :
  Py.result (_get_transcript (captions [en_manual]) (init (captions [en_manual]))
               rick "en" 100)
  = Py.Returned (Some (Py.join Py.nl ["never gonna"; "give you up"]), Some "en")
  /\ exists first rest,
       Py.join Py.nl (repeat "0123456789" 11) = first +:+ rest
       /\ Py.len first = 100
       /\ Py.result (_get_transcript (captions [en_long]) (init (captions [en_long]))
                       rick "en" 100)
          = Py.Returned (Some (first +:+ Py.nl +:+ "[Transcript truncated...]"), Some "en").
Proof.
  split.
  - refine (proj1 (transcript_truncation rick "en" 100
              (captions [en_manual]) (init (captions [en_manual])) _ _
              (transcript_list_of [en_manual]) en_manual "en" _ _
              _ eq_refl eq_refl eq_refl eq_refl eq_refl eq_refl) _).
    + lia.
    + vm_compute. discriminate.
  - refine (proj2 (transcript_truncation rick "en" 100
              (captions [en_long]) (init (captions [en_long])) _ _
              (transcript_list_of [en_long]) en_long "en" _ _
              _ eq_refl eq_refl eq_refl eq_refl eq_refl eq_refl) _).
    + lia.
    + vm_compute. reflexivity.
Defined.

Lemma transcript_length_bound_witness :
  Py.len truncation_marker = 26
  /\ Py.len (Py.take 100 (Py.join Py.nl (repeat "0123456789" 11)) +:+ truncation_marker)
     <= 100 + 26
  /\ (Py.len (Py.take 100 (Py.join Py.nl (repeat "0123456789" 11)) +:+ truncation_marker)
      <= 100
      \/ Py.len (Py.take 100 (Py.join Py.nl (repeat "0123456789" 11)) +:+ truncation_marker)
         = 100 + 26).
Proof.
  apply (transcript_length_bound rick "en" 100
           (captions [en_long]) (init (captions [en_long])) _ (Some "en")).
  - lia.
  - vm_compute. reflexivity.
Defined.

Lemma caption_selection_policy_witness :
  Py.result (select_transcript (transcript_list_of [fr_auto; de_manual]) "en")
  = Py.Returned (Some de_manual, "de")
  /\ Py.result (_get_transcript (captions [fr_auto; de_manual])
                  (init (captions [fr_auto; de_manual])) rick "en" 10000)
     = Py.Returned (Some "niemals", Some "de").
Proof.
  destruct (caption_selection_policy rick "en" 10000
              (captions [fr_auto; de_manual]) (init (captions [fr_auto; de_manual]))
              _ _ [fr_auto; de_manual] eq_refl eq_refl eq_refl) as (Hsel & Hres & _).
  split; [exact Hsel | exact Hres].
Defined.

End TranscriptRuns.

(** *** The metadata fetcher *)

Section Metadata.

Import processor.

Variables (env : Env) (video_id url : string).

(** C1. [_get_video_info] never raises; when every tier is unavailable
    or raises, it returns the minimal record: title "Video <id>",
    channel "Unknown Channel", duration 0 and thumbnail
    "https://img.youtube.com/vi/<id>/maxresdefault.jpg". *)
Theorem get_video_info_never_raises :
  (exists info, Py.result (_get_video_info env video_id url) = Py.Returned info)
  /\ (Spec.tier1_down env video_id url -> Spec.tier2_down env url ->
      Py.result (_get_video_info env video_id url)
      = Py.Returned (minimal_fallback video_id url))
  /\ minimal_fallback video_id url !! "title" = Some (Py.VStr ("Video " +:+ video_id))
  /\ minimal_fallback video_id url !! "channel" = Some (Py.VStr "Unknown Channel")
  /\ minimal_fallback video_id url !! "duration" = Some (Py.VInt 0)
  /\ minimal_fallback video_id url !! "thumbnail_url"
     = Some (Py.VStr ("https://img.youtube.com/vi/" +:+ video_id +:+ "/maxresdefault.jpg")).
Proof.
  assert (Htier2 : exists info,
    Py.result (match YouTube env with
     | Some yt =>
         Py.try_except (_get_video_info_pytube yt url)
           (fun e => do* Py.print ("pytube failed: " +:+ Py.exc_str e)
                     in Py.ret (minimal_fallback video_id url))
     | None => Py.ret (minimal_fallback video_id url)
     end) = Py.Returned info).
  { destruct (YouTube env) as [yt|]; [| eauto].
    rewrite result_try_except.
    destruct (Py.result (_get_video_info_pytube yt url)); eauto. }
  split; [| split].
  - unfold _get_video_info. destruct (yt_dlp env) as [x|]; [| exact Htier2].
    rewrite result_try_except.
    destruct (Py.result (_get_video_info_yt_dlp x video_id url)); [eauto |].
    rewrite result_bind. simpl. exact Htier2.
  - unfold Spec.tier1_down, Spec.tier2_down, _get_video_info.
    intros H1 H2.
    assert (Py.result (match YouTube env with
     | Some yt =>
         Py.try_except (_get_video_info_pytube yt url)
           (fun e => do* Py.print ("pytube failed: " +:+ Py.exc_str e)
                     in Py.ret (minimal_fallback video_id url))
     | None => Py.ret (minimal_fallback video_id url)
     end) = Py.Returned (minimal_fallback video_id url)) as Hmin.
    { destruct (YouTube env) as [yt|]; [| reflexivity].
      destruct H2 as [e He]. rewrite result_try_except, He. reflexivity. }
    destruct (yt_dlp env) as [x|]; [| exact Hmin].
    destruct H1 as [e He]. rewrite result_try_except, He, result_bind. simpl. exact Hmin.
  - repeat split; reflexivity.
Qed.

End Metadata.

Example format_comma_examples :
  Py.format_comma 1234567 = "1,234,567"%string
  /\ Py.format_comma (-1000) = "-1,000"%string
  /\ Py.format_comma 999 = "999"%string
  /\ Py.format_comma 0 = "0"%string
  /\ Py.format_comma 1001001 = "1,001,001"%string.
Proof. repeat split; vm_compute; reflexivity. Qed.

Lemma get_video_info_never_raises_witness :
  Py.result (processor._get_video_info Samples.offline Samples.rick
               "https://youtu.be/dQw4w9WgXcQ")
  = Py.Returned (processor.minimal_fallback Samples.rick "https://youtu.be/dQw4w9WgXcQ").
Proof.
  apply (proj1 (proj2 (get_video_info_never_raises Samples.offline Samples.rick
                         "https://youtu.be/dQw4w9WgXcQ"))).
  - simpl. eexists. reflexivity.
  - simpl. eexists. reflexivity.
Defined.

(** *** Regular expressions *)

Ltac parts :=
  repeat match goal with |- _ /\ _ => split end;
  simpl; try exact eq_refl; try assumption; eauto.

Section Regex.

Import re.

Context {R : Type}.

(** What the matcher finds is a word of the expression, and the
    continuation accepted what follows it. *)
Lemma run_sound (r : regex) : forall (s : string) (k : string -> option R) (x : R),
  run r s k = Some x ->
  exists w rest, s = w +:+ rest /\ denotes r w /\ k rest = Some x.
Proof.
  induction r as [| c | member | r1 IH1 r2 IH2 | r1 IH1 | n r1 IH1]; intros s k x H.
  - exists EmptyString, s. parts.
  - destruct s as [|a s]; [discriminate |]. simpl in H.
    destruct (Ascii.eqb_spec a c) as [->|]; [| discriminate].
    exists (String c EmptyString), s. parts.
  - destruct s as [|a s]; [discriminate |]. simpl in H.
    destruct (member a) eqn:Hm; [| discriminate].
    exists (String a EmptyString), s. split; [reflexivity |]. split; [| exact H].
    exists a. parts.
  - simpl in H. apply IH1 in H. destruct H as (w1 & s1 & -> & Hw1 & H).
    apply IH2 in H. destruct H as (w2 & s2 & -> & Hw2 & H).
    exists (w1 +:+ w2), s2. rewrite app_assoc_str. split; [reflexivity |].
    split; [| exact H]. exists w1, w2. parts.
  - simpl in H. destruct (run r1 s k) as [y|] eqn:Hr.
    + injection H as ->. apply IH1 in Hr. destruct Hr as (w & rest & -> & Hw & Hk).
      exists w, rest. simpl. parts.
    + exists EmptyString, s. simpl. parts.
  - revert s H. induction n as [|n IHn]; intros s H.
    + exists EmptyString, s. parts.
    + simpl in H. apply IH1 in H. destruct H as (w1 & s1 & -> & Hw1 & H).
      apply IHn in H. destruct H as (w2 & s2 & -> & Hw2 & H).
      exists (w1 +:+ w2), s2. rewrite app_assoc_str. split; [reflexivity |].
      split; [| exact H]. simpl. exists w1, w2. parts.
Qed.

(** A word of the expression followed by something the continuation
    accepts is found, whatever the order of the attempts. *)
Lemma run_complete (r : regex) : forall (w rest : string) (k : string -> option R),
  denotes r w -> is_Some (k rest) -> is_Some (run r (w +:+ rest) k).
Proof.
  induction r as [| c | member | r1 IH1 r2 IH2 | r1 IH1 | n r1 IH1]; intros w rest k Hw Hk.
  - simpl in Hw. subst w. exact Hk.
  - simpl in Hw. subst w. simpl. rewrite Ascii.eqb_refl. exact Hk.
  - destruct Hw as (c & -> & Hc). simpl. rewrite Hc. exact Hk.
  - destruct Hw as (w1 & w2 & -> & H1 & H2). simpl. rewrite app_assoc_str.
    apply IH1; [exact H1 |]. apply IH2; assumption.
  - simpl. destruct (run r1 (w +:+ rest) k) as [y|] eqn:Hr; [eauto |].
    destruct Hw as [-> | Hw]; [exact Hk |].
    pose proof (IH1 w rest k Hw Hk) as [y Hy]. congruence.
  - revert w Hw. induction n as [|n IHn]; intros w Hw.
    + simpl in Hw. subst w. exact Hk.
    + destruct Hw as (w1 & w2 & -> & H1 & H2). simpl. rewrite app_assoc_str.
      apply IH1; [exact H1 |]. apply IHn. exact H2.
Qed.

End Regex.

Section RegexMatch.

Import re.

Lemma match_sound (p : pattern) (s : string) (m : Match) :
  match_ p s = Some m ->
  exists w rest,
    s = w +:+ group_1 m +:+ rest /\ denotes (before p) w /\ denotes (group1 p) (group_1 m).
Proof.
  unfold match_. intros H.
  apply run_sound in H. destruct H as (w & s1 & -> & Hw & H).
  apply run_sound in H. destruct H as (g & s2 & -> & Hg & H).
  injection H as <-. simpl.
  replace (String.length (g +:+ s2) - String.length s2)%nat with (String.length g)
    by (rewrite length_app; lia).
  rewrite take_app_exact. parts.
Qed.

Lemma match_complete (p : pattern) (w g rest : string) :
  denotes (before p) w -> denotes (group1 p) g ->
  is_Some (match_ p (w +:+ g +:+ rest)).
Proof.
  intros Hw Hg. unfold match_.
  apply run_complete; [exact Hw |]. apply run_complete; [exact Hg | eauto].
Qed.

(** [re.match] succeeding, [re.search] returns the same match. *)
Lemma search_of_match (p : pattern) (s : string) (m : Match) :
  match_ p s = Some m -> search p s = Some m.
Proof. intros H. destruct s; simpl; now rewrite H. Qed.

Lemma search_sound (p : pattern) (s : string) (m : Match) :
  search p s = Some m -> exists pre suf, s = pre +:+ suf /\ match_ p suf = Some m.
Proof.
  induction s as [|c s IH]; simpl.
  - destruct (match_ p EmptyString) as [m'|] eqn:Hm; [| discriminate].
    intros [= <-]. exists EmptyString, EmptyString. parts.
  - destruct (match_ p (String c s)) as [m'|] eqn:Hm.
    + intros [= <-]. exists EmptyString, (String c s). parts.
    + intros H. destruct (IH H) as (pre & suf & -> & Hsuf).
      exists (String c pre), suf. parts.
Qed.

Lemma search_complete (p : pattern) (pre suf : string) :
  is_Some (match_ p suf) -> is_Some (search p (pre +:+ suf)).
Proof.
  intros [m Hm]. induction pre as [|c pre IH]; simpl.
  - exists m. now apply search_of_match.
  - destruct (match_ p (String c (pre +:+ suf))); [eauto | exact IH].
Qed.

End RegexMatch.

(** *** The URL patterns *)

Section Patterns.

Import re schemas.

#[local] Arguments lit : simpl never.

Lemma denotes_lit (s w : string) : denotes (lit s) w <-> w = s.
Proof.
  revert w. induction s as [|c s IH]; intros w; unfold lit; fold lit; simpl.
  - reflexivity.
  - split.
    + intros (w1 & w2 & -> & -> & H2). apply IH in H2. now subst.
    + intros ->. exists (String c EmptyString), s. parts. now apply IH.
Qed.

Lemma denotes_class_times (member : ascii -> bool) (n : nat) (w : string) :
  denotes (Times n (Cls member)) w <->
  String.length w = n /\ Forall (fun c => member c = true) (list_ascii_of_string w).
Proof.
  revert w. induction n as [|n IH]; intros w.
  - simpl. split.
    + intros ->. split; [reflexivity | constructor].
    + intros [H _]. now destruct w.
  - split.
    + intros (w1 & w2 & -> & (c & -> & Hc) & H2). apply IH in H2.
      destruct H2 as [Hlen Hall]. simpl. split; [now rewrite Hlen |].
      now constructor.
    + intros [Hlen Hall]. destruct w as [|c w]; [discriminate |].
      simpl in Hlen, Hall. inversion Hall as [|? ? Hc Hrest]; subst.
      exists (String c EmptyString), w. split; [reflexivity |].
      split; [exists c; auto |]. apply IH. split; [lia | exact Hrest].
Qed.

(** The class of the patterns is the alphabet of the identifiers. *)
Lemma id_char_alphabet (c : ascii) : id_char c = true <-> In c Spec.id_alphabet.
Proof.
  assert (H : id_char c = existsb (Ascii.eqb c) Spec.id_alphabet).
  { destruct c as [[] [] [] [] [] [] [] []]; vm_compute; reflexivity. }
  rewrite H, existsb_exists. split.
  - intros (x & Hx & Heq). apply Ascii.eqb_eq in Heq. now subst.
  - intros Hin. exists c. split; [exact Hin | apply Ascii.eqb_refl].
Qed.

Lemma denotes_id_group (w : string) : denotes id_group w <-> Spec.video_id_token w.
Proof.
  unfold id_group, Spec.video_id_token. rewrite denotes_class_times.
  split; intros [Hlen Hall]; (split; [exact Hlen |]);
    eapply Forall_impl; try exact Hall; intros c; apply id_char_alphabet.
Qed.

Lemma denotes_scheme_www (w : string) :
  denotes scheme_www w <->
  exists scheme www, In scheme Spec.schemes /\ In www Spec.wwws /\ w = scheme +:+ www.
Proof.
  unfold scheme_www. split.
  - intros (w1 & w2 & -> & H1 & H2).
    assert (Hw2 : In w2 Spec.wwws).
    { destruct H2 as [-> | H2]; [now left |]. apply denotes_lit in H2. subst. right. now left. }
    assert (Hw1 : In w1 Spec.schemes).
    { destruct H1 as [-> | H1]; [now left |].
      destruct H1 as (a & b & -> & Ha & b1 & b2 & -> & Hs & Hb).
      apply denotes_lit in Ha, Hb. subst.
      destruct Hs as [-> | ->]; simpl; [right; now left | right; right; now left]. }
    eauto.
  - intros (scheme & www & Hs & Hw & ->).
    exists scheme, www. split; [reflexivity |]. split.
    + destruct Hs as [<- | [<- | [<- | []]]].
      * now left.
      * right. exists "http", "://". split; [reflexivity |].
        split; [now apply denotes_lit |].
        exists EmptyString, "://". split; [reflexivity |].
        split; [now left | now apply denotes_lit].
      * right. exists "http", "s://". split; [reflexivity |].
        split; [now apply denotes_lit |].
        exists "s", "://". split; [reflexivity |].
        split; [now right | now apply denotes_lit].
    + destruct Hw as [<- | [<- | []]]; [now left | right; now apply denotes_lit].
Qed.

Lemma match_shape (host u : string) (m : Match) :
  match_ (url_pattern host) u = Some m -> Spec.has_shape host (group_1 m) u.
Proof.
  intros H. apply match_sound in H. destruct H as (w & rest & Hu & Hw & Hg).
  simpl in Hw, Hg. destruct Hw as (w1 & w2 & -> & H1 & H2).
  apply denotes_lit in H2. subst w2.
  apply denotes_scheme_www in H1. destruct H1 as (scheme & www & Hs & Hww & ->).
  apply denotes_id_group in Hg.
  exists scheme, www, rest. parts. rewrite Hu, !app_assoc_str. reflexivity.
Qed.

Lemma shape_match (host id u : string) :
  Spec.has_shape host id u -> is_Some (match_ (url_pattern host) u).
Proof.
  intros (scheme & www & rest & Hs & Hw & Hid & ->).
  replace (scheme +:+ www +:+ host +:+ id +:+ rest)
    with (((scheme +:+ www) +:+ host) +:+ id +:+ rest)
    by (now rewrite !app_assoc_str).
  apply match_complete.
  - simpl. exists (scheme +:+ www), host. parts.
    + apply denotes_scheme_www. eauto.
    + now apply denotes_lit.
  - now apply denotes_id_group.
Qed.

Lemma youtube_patterns_hosts : youtube_patterns = map url_pattern Spec.hosts.
Proof. reflexivity. Qed.

(** The validator accepts exactly the recognized shapes. *)
Lemma validate_loop_spec (hs : list string) (v : string) :
  ((exists host id, In host hs /\ Spec.has_shape host id v) ->
     validate_loop (map url_pattern hs) v = Py.Returned v)
  /\ (~ (exists host id, In host hs /\ Spec.has_shape host id v) ->
     validate_loop (map url_pattern hs) v
     = Py.Raised (Py.Exc Py.ValueError "Invalid YouTube URL format")).
Proof.
  induction hs as [|h hs [IHyes IHno]]; simpl.
  - split; [intros (host & id & [] & _) | reflexivity].
  - destruct (match_ (url_pattern h) v) as [m|] eqn:Hm.
    + split; [reflexivity |]. intros Hnot. exfalso. apply Hnot.
      exists h, (group_1 m). split; [now left | now apply match_shape].
    + split.
      * intros (host & id & [<- | Hin] & Hshape).
        -- apply shape_match in Hshape. destruct Hshape as [m Hm']. congruence.
        -- apply IHyes. eauto.
      * intros Hnot. apply IHno. intros (host & id & Hin & Hshape).
        apply Hnot. exists host, id. split; [now right | exact Hshape].
Qed.

Lemma validate_recognized (v : string) :
  Spec.recognized v -> validate_youtube_url v = Py.Returned v.
Proof. apply (validate_loop_spec Spec.hosts v). Qed.

Lemma validate_unrecognized (v : string) :
  ~ Spec.recognized v ->
  validate_youtube_url v = Py.Raised (Py.Exc Py.ValueError "Invalid YouTube URL format").
Proof. apply (validate_loop_spec Spec.hosts v). Qed.

Lemma validate_returns (v : string) (r : string) :
  validate_youtube_url v = Py.Returned r -> r = v /\ Spec.recognized v.
Proof.
  intros H. unfold validate_youtube_url in H. rewrite youtube_patterns_hosts in H.
  assert (G : forall hs, validate_loop (map url_pattern hs) v = Py.Returned r ->
              r = v /\ exists host id, In host hs /\ Spec.has_shape host id v).
  { induction hs as [|h hs IH]; simpl; [discriminate |].
    destruct (match_ (url_pattern h) v) as [m|] eqn:Hm.
    - intros [= <-]. split; [reflexivity |].
      exists h, (group_1 m). split; [now left | now apply match_shape].
    - intros H'. destruct (IH H') as (-> & host & id & Hin & Hs).
      split; [reflexivity |]. exists host, id. split; [now right | exact Hs]. }
  exact (G Spec.hosts H).
Qed.

(** The resolver finds an identifier exactly when a recognized shape
    starts somewhere in the URL. *)
Lemma extract_loop_returns (hs : list string) (u id : string) :
  extract_loop (map url_pattern hs) u = Py.Returned id ->
  exists host before_ rest,
    In host hs /\ u = before_ +:+ rest /\ Spec.has_shape host id rest.
Proof.
  induction hs as [|h hs IH]; simpl; [discriminate |].
  destruct (search (url_pattern h) u) as [m|] eqn:Hm.
  - intros [= <-]. apply search_sound in Hm. destruct Hm as (pre & suf & -> & Hm).
    exists h, pre, suf. split; [now left |]. split; [reflexivity | now apply match_shape].
  - intros H. destruct (IH H) as (host & pre & suf & Hin & -> & Hs).
    exists host, pre, suf. split; [now right |]. auto.
Qed.

Lemma extract_loop_spec (hs : list string) (u : string) :
  ((exists host id before_ rest,
      In host hs /\ u = before_ +:+ rest /\ Spec.has_shape host id rest) ->
     exists id, extract_loop (map url_pattern hs) u = Py.Returned id)
  /\ (~ (exists host id before_ rest,
      In host hs /\ u = before_ +:+ rest /\ Spec.has_shape host id rest) ->
     extract_loop (map url_pattern hs) u
     = Py.Raised (Py.Exc Py.ValueError "Could not extract video ID from URL")).
Proof.
  induction hs as [|h hs [IHyes IHno]]; simpl.
  - split; [intros (host & id & pre & suf & [] & _) | reflexivity].
  - destruct (search (url_pattern h) u) as [m|] eqn:Hm.
    + split; [eauto |]. intros Hnot. exfalso. apply Hnot.
      apply search_sound in Hm. destruct Hm as (pre & suf & -> & Hm).
      exists h, (group_1 m), pre, suf.
      split; [now left |]. split; [reflexivity | now apply match_shape].
    + split.
      * intros (host & id & pre & suf & [<- | Hin] & -> & Hshape).
        -- apply shape_match in Hshape.
           apply (search_complete _ pre) in Hshape. destruct Hshape as [m Hm'].
           congruence.
        -- apply IHyes. exists host, id, pre, suf. auto.
      * intros Hnot. apply IHno. intros (host & id & pre & suf & Hin & Hu & Hshape).
        apply Hnot. exists host, id, pre, suf. split; [now right | auto].
Qed.

End Patterns.

(** *** Validator and resolver *)

Section Validation.

Import schemas.

Lemma recognized_iff_validated (u : string) :
  Spec.recognized u <-> validate_youtube_url u = Py.Returned u.
Proof.
  split; [apply validate_recognized |].
  intros H. now apply validate_returns in H.
Qed.

Lemma contains_shape_iff_resolved (u : string) :
  Spec.contains_shape u <-> exists id, extract_loop youtube_patterns u = Py.Returned id.
Proof.
  rewrite youtube_patterns_hosts. split.
  - intros (pre & suf & -> & host & id & Hin & Hs).
    apply (extract_loop_spec Spec.hosts). exists host, id, pre, suf. auto.
  - intros [id H]. apply extract_loop_returns in H.
    destruct H as (host & pre & suf & Hin & -> & Hs).
    exists pre, suf. split; [reflexivity |]. exists host, id. auto.
Qed.

Lemma recognized_contains (u : string) : Spec.recognized u -> Spec.contains_shape u.
Proof. intros H. exists EmptyString, u. auto. Qed.

(** A validated URL is always resolved, to an identifier that follows
    one of the three hosts somewhere in the URL. *)
Lemma resolver_total_on_validated (q : VideoQuery) :
  validate_youtube_url (url q) = Py.Returned (url q) ->
  exists id,
    extract_video_id q = Py.Returned id
    /\ Spec.video_id_token id
    /\ exists host before_ rest,
         In host Spec.hosts /\ url q = before_ +:+ rest /\ Spec.has_shape host id rest.
Proof.
  intros H. apply recognized_iff_validated, recognized_contains in H.
  apply contains_shape_iff_resolved in H. destruct H as [id H].
  exists id. split; [exact H |].
  rewrite youtube_patterns_hosts in H. apply extract_loop_returns in H.
  destruct H as (host & pre & suf & Hin & Hu & Hs).
  split; [| exists host, pre, suf; auto].
  destruct Hs as (? & ? & ? & _ & _ & Hid & _). exact Hid.
Qed.

Lemma prefix_split (needle text : string) :
  String.prefix needle text = true -> exists after_, text = needle +:+ after_.
Proof.
  revert text. induction needle as [|c needle IH]; intros text H.
  - exists text. reflexivity.
  - destruct text as [|d text]; [discriminate |]. simpl in H.
    destruct (ascii_dec c d) as [->|]; [| discriminate].
    destruct (IH text H) as [post ->]. exists post. reflexivity.
Qed.

Lemma contains_by_computation (needle text : string) :
  Spec.contains_b needle text = true -> Spec.contains needle text.
Proof.
  induction text as [|c text IH]; intros H.
  - change (String.prefix needle EmptyString || false = true) in H.
    apply orb_true_iff in H. destruct H as [H|H]; [| discriminate].
    apply prefix_split in H. destruct H as [post H]. exists EmptyString, post. exact H.
  - change (String.prefix needle (String c text) || Spec.contains_b needle text = true) in H.
    apply orb_true_iff in H. destruct H as [H|H].
    + apply prefix_split in H. destruct H as [post H]. exists EmptyString, post. exact H.
    + destruct (IH H) as (pre & post & ->). exists (String c pre), post. reflexivity.
Qed.

Ltac message_facts :=
  intros;
  first [ lia
        | contradiction
        | reflexivity
        | apply contains_by_computation; vm_compute; reflexivity ].

(** C5. The construction of a [VideoQuery] succeeds if and only if the
    URL has a recognized shape and [max_transcript_length >= 100];
    otherwise it fails with a [ValidationError], a [ValueError], whose
    message is the text pydantic renders from the violated checks: it
    contains "Invalid YouTube URL format" when the URL is not
    recognized and "Transcript length must be at least 100 characters"
    when the length is under 100.  The request is answered before any
    call to a provider: the handler performs no event at all and
    renders that message with status 400. *)
Theorem video_query_validation (env : processor.Env) (u : string)
    (max_transcript_length : Z) (lang : string) (include_comments : bool) :
  ((exists q, new_VideoQuery u max_transcript_length lang include_comments = Py.Returned q)
   <-> Spec.recognized u /\ 100 <= max_transcript_length)
  /\ (forall q,
       new_VideoQuery u max_transcript_length lang include_comments = Py.Returned q ->
       q = MkVideoQuery u max_transcript_length include_comments lang)
  /\ (~ (Spec.recognized u /\ 100 <= max_transcript_length) ->
      exists errors message,
        new_VideoQuery u max_transcript_length lang include_comments
        = Py.Raised (Py.Exc Py.ValidationError message)
        /\ message = validation_error_str errors
        /\ Py.is_ValueError (Py.Exc Py.ValidationError message) = true
        /\ (~ Spec.recognized u <-> In ("url", "Invalid YouTube URL format") errors)
        /\ (max_transcript_length < 100 <->
            In ("max_transcript_length",
                "Transcript length must be at least 100 characters") errors)
        /\ (~ Spec.recognized u -> Spec.contains "Invalid YouTube URL format" message)
        /\ (max_transcript_length < 100 ->
            Spec.contains "Transcript length must be at least 100 characters" message)
        /\ (~ Spec.recognized u -> 100 <= max_transcript_length ->
            message = "1 validation error for VideoQuery" +:+ Py.nl
                      +:+ "url" +:+ Py.nl
                      +:+ "  Invalid YouTube URL format (type=value_error)")
        /\ (Spec.recognized u -> max_transcript_length < 100 ->
            message = "1 validation error for VideoQuery" +:+ Py.nl
                      +:+ "max_transcript_length" +:+ Py.nl
                      +:+ "  Transcript length must be at least 100 characters"
                      +:+ " (type=value_error)")
        /\ (~ Spec.recognized u -> max_transcript_length < 100 ->
            message = "2 validation errors for VideoQuery" +:+ Py.nl
                      +:+ "url" +:+ Py.nl
                      +:+ "  Invalid YouTube URL format (type=value_error)" +:+ Py.nl
                      +:+ "max_transcript_length" +:+ Py.nl
                      +:+ "  Transcript length must be at least 100 characters"
                      +:+ " (type=value_error)")
        /\ main.process_video env u max_transcript_length lang
           = ([], Py.Returned
                    (main.MkResponse "index.html" (main.ErrorPage message) 400))).
Proof.
  unfold main.process_video, new_VideoQuery, validate_transcript_length.
  destruct (validate_youtube_url u) as [r|e] eqn:Hv.
  - apply validate_returns in Hv. destruct Hv as [-> Hrec].
    destruct (Z.ltb_spec max_transcript_length 100) as [Hlt|Hge].
    + split; [| split].
      * split; [intros [q Hq]; discriminate | intros [_ H]; lia].
      * intros q Hq. discriminate.
      * intros _. do 2 eexists. split; [reflexivity |]. split; [reflexivity |].
        split; [reflexivity |]. simpl field_errors. simpl app.
        split; [| split; [| split; [| split; [| split; [| split; [| split]]]]]].
        -- split; [intros Hn; now elim Hn | intros [H|[]]; discriminate].
        -- split; [intros _; now left | intros _; exact Hlt].
        -- message_facts.
        -- message_facts.
        -- message_facts.
        -- message_facts.
        -- message_facts.
        -- reflexivity.
    + split; [| split].
      * split; [intros _; split; [exact Hrec | lia] | eauto].
      * now intros q [= <-].
      * intros Hn. elim Hn. split; [exact Hrec | lia].
  - assert (Hnot : ~ Spec.recognized u).
    { intros Hrec. apply validate_recognized in Hrec. congruence. }
    assert (He : e = Py.Exc Py.ValueError "Invalid YouTube URL format").
    { rewrite (validate_unrecognized u Hnot) in Hv. congruence. }
    subst e.
    split; [| split].
    + split; [| intros [H _]; now elim Hnot].
      intros [q Hq]. destruct (max_transcript_length <? 100); discriminate.
    + intros q Hq. destruct (max_transcript_length <? 100); discriminate.
    + intros _. destruct (Z.ltb_spec max_transcript_length 100) as [Hlt|Hge].
      * do 2 eexists. split; [reflexivity |]. split; [reflexivity |].
        split; [reflexivity |]. simpl field_errors. simpl app.
        split; [| split; [| split; [| split; [| split; [| split; [| split]]]]]].
        -- split; [intros _; now left | intros _; exact Hnot].
        -- split; [intros _; right; now left | intros _; exact Hlt].
        -- message_facts.
        -- message_facts.
        -- message_facts.
        -- message_facts.
        -- message_facts.
        -- reflexivity.
      * do 2 eexists. split; [reflexivity |]. split; [reflexivity |].
        split; [reflexivity |]. simpl field_errors. simpl app.
        split; [| split; [| split; [| split; [| split; [| split; [| split]]]]]].
        -- split; [intros _; now left | intros _; exact Hnot].
        -- split; [lia | intros [H|[]]; discriminate].
        -- message_facts.
        -- message_facts.
        -- message_facts.
        -- message_facts.
        -- message_facts.
        -- reflexivity.
Qed.

Lemma String_inj (a b : ascii) (s t : string) :
  String a s = String b t -> a = b /\ s = t.
Proof. now intros [= -> ->]. Qed.

(** The only recognized shape of the URL [two_tokens] is the short link
    of the identifier that follows its host. *)
Lemma two_tokens_shape (host id : string) :
  In host Spec.hosts -> Spec.has_shape host id Samples.two_tokens ->
  host = Spec.short_link /\ id = "dQw4w9WgXcQ"%string.
Proof.
  intros Hin (scheme & www & rest & Hs & Hw & [Hlen _] & Hu).
  unfold Samples.two_tokens in Hu.
  destruct Hin as [<- | [<- | [<- | []]]];
    destruct Hs as [<- | [<- | [<- | []]]];
    destruct Hw as [<- | [<- | []]];
    simpl in Hu; try discriminate Hu.
  repeat (apply String_inj in Hu; destruct Hu as [_ Hu]).
  split; [reflexivity |].
  rewrite <- (take_app_exact id rest), <- Hu, Hlen. reflexivity.
Qed.

Lemma app_same_length (a b c d : string) :
  a +:+ b = c +:+ d -> String.length a = String.length c -> a = c.
Proof.
  revert c. induction a as [|x a IH]; intros [|y c] H Hlen; try discriminate Hlen.
  - reflexivity.
  - simpl in H. injection H as -> H. f_equal. apply (IH c H). simpl in Hlen. lia.
Qed.

(** A URL has at most one recognized shape. *)
Lemma shape_unique (host host' id id' u : string) :
  In host Spec.hosts -> In host' Spec.hosts ->
  Spec.has_shape host id u -> Spec.has_shape host' id' u ->
  host = host' /\ id = id'.
Proof.
  intros Hin Hin' (scheme & www & rest & Hs & Hw & [Hlen _] & Hu)
         (scheme' & www' & rest' & Hs' & Hw' & [Hlen' _] & Hu').
  rewrite Hu in Hu'. clear Hu.
  destruct Hin as [<- | [<- | [<- | []]]];
    destruct Hin' as [<- | [<- | [<- | []]]];
    destruct Hs as [<- | [<- | [<- | []]]];
    destruct Hs' as [<- | [<- | [<- | []]]];
    destruct Hw as [<- | [<- | []]];
    destruct Hw' as [<- | [<- | []]];
    simpl in Hu'; try discriminate Hu';
    repeat (apply String_inj in Hu'; destruct Hu' as [_ Hu']);
    (split; [reflexivity |]);
    apply (app_same_length _ _ _ _ Hu'); congruence.
Qed.

(** On a URL of the watch-page shape, the first pattern of the list, the
    resolver returns the identifier of the shape. *)
Lemma watch_page_resolved (q : VideoQuery) (id : string) :
  Spec.has_shape Spec.watch_page id (url q) -> extract_video_id q = Py.Returned id.
Proof.
  intros Hs. destruct (shape_match _ _ _ Hs) as [m Hm].
  unfold extract_video_id. simpl.
  fold Spec.watch_page. rewrite (search_of_match _ _ _ Hm).
  apply match_shape in Hm.
  destruct (shape_unique Spec.watch_page Spec.watch_page (re.group_1 m) id (url q))
    as [_ ->]; try (now left); auto.
Qed.

(** C4, at a validated URL that carries a second token: the validator
    accepts [two_tokens], whose only recognized shape is the short link
    of dQw4w9WgXcQ, and [extract_video_id] returns AAAAAAAAAAA, the
    token of a watch-page pattern found further in the string. *)
Theorem resolver_returns_other_token :
  validate_youtube_url Samples.two_tokens = Py.Returned Samples.two_tokens
  /\ Spec.has_shape Spec.short_link "dQw4w9WgXcQ" Samples.two_tokens
  /\ (forall host id,
        In host Spec.hosts -> Spec.has_shape host id Samples.two_tokens ->
        host = Spec.short_link /\ id = "dQw4w9WgXcQ"%string)
  /\ extract_video_id (Samples.query Samples.two_tokens) = Py.Returned "AAAAAAAAAAA".
Proof.
  split; [vm_compute; reflexivity |].
  split; [| split; [exact two_tokens_shape | vm_compute; reflexivity]].
  assert (H : validate_loop [url_pattern Spec.short_link] Samples.two_tokens
              = Py.Returned Samples.two_tokens) by (vm_compute; reflexivity).
  simpl in H. destruct (re.match_ (url_pattern Spec.short_link) Samples.two_tokens)
    as [m|] eqn:Hm; [| discriminate].
  assert (Hg : re.group_1 m = "dQw4w9WgXcQ"%string).
  { assert (Some m = Some (re.MkMatch "dQw4w9WgXcQ")) as [= ->]; [| reflexivity].
    rewrite <- Hm. vm_compute. reflexivity. }
  rewrite <- Hg. now apply match_shape.
Qed.

(** A URL that the validator rejects and the resolver resolves. *)
Lemma resolver_accepts_unrecognized :
  ~ Spec.recognized Samples.mobile_url
  /\ validate_youtube_url Samples.mobile_url
     = Py.Raised (Py.Exc Py.ValueError "Invalid YouTube URL format")
  /\ extract_video_id (Samples.query Samples.mobile_url) = Py.Returned "dQw4w9WgXcQ"
  /\ ~ (exists e, extract_video_id (Samples.query Samples.mobile_url) = Py.Raised e).
Proof.
  split; [| split; [| split]].
  - intros H. apply recognized_iff_validated in H. vm_compute in H. discriminate.
  - vm_compute. reflexivity.
  - vm_compute. reflexivity.
  - intros [e H]. vm_compute in H. discriminate.
Qed.

(** C6, amended. A URL without a recognized shape is rejected by the
    validator with a [ValueError]; a URL in which no recognized shape
    starts at any position is rejected by the validator and by the
    resolver, both with a [ValueError]. *)
Theorem unrecognized_url_rejected (q : VideoQuery) :
  (~ Spec.recognized (url q) ->
     validate_youtube_url (url q)
     = Py.Raised (Py.Exc Py.ValueError "Invalid YouTube URL format"))
  /\ (~ Spec.contains_shape (url q) ->
      exists e1 e2,
        validate_youtube_url (url q) = Py.Raised e1
        /\ extract_video_id q = Py.Raised e2
        /\ e1 = Py.Exc Py.ValueError "Invalid YouTube URL format"
        /\ e2 = Py.Exc Py.ValueError "Could not extract video ID from URL"
        /\ Py.exc_cls e1 = Py.exc_cls e2).
Proof.
  split; [apply validate_unrecognized |].
  intros Hnot. do 2 eexists.
  split; [| split; [| split; [reflexivity | split; reflexivity]]].
  - apply validate_unrecognized. intros H. apply Hnot. now apply recognized_contains.
  - unfold extract_video_id. rewrite youtube_patterns_hosts.
    apply (extract_loop_spec Spec.hosts).
    intros (host & id & pre & suf & Hin & Hu & Hs). apply Hnot.
    exists pre, suf. split; [exact Hu |]. exists host, id. auto.
Qed.

End Validation.

Lemma video_query_validation_witness :
  exists errors message,
    schemas.new_VideoQuery Samples.watch_url 50 "en" false
    = Py.Raised (Py.Exc Py.ValidationError message)
    /\ message = schemas.validation_error_str errors
    /\ Py.is_ValueError (Py.Exc Py.ValidationError message) = true
    /\ (~ Spec.recognized Samples.watch_url
        <-> In ("url", "Invalid YouTube URL format")%string errors)
    /\ (50 < 100 <->
        In ("max_transcript_length",
            "Transcript length must be at least 100 characters")%string errors)
    /\ (~ Spec.recognized Samples.watch_url ->
        Spec.contains "Invalid YouTube URL format" message)
    /\ (50 < 100 ->
        Spec.contains "Transcript length must be at least 100 characters" message)
    /\ (~ Spec.recognized Samples.watch_url -> 100 <= 50 ->
        message = "1 validation error for VideoQuery" +:+ Py.nl
                  +:+ "url" +:+ Py.nl
                  +:+ "  Invalid YouTube URL format (type=value_error)")
    /\ (Spec.recognized Samples.watch_url -> 50 < 100 ->
        message = "1 validation error for VideoQuery" +:+ Py.nl
                  +:+ "max_transcript_length" +:+ Py.nl
                  +:+ "  Transcript length must be at least 100 characters"
                  +:+ " (type=value_error)")
    /\ (~ Spec.recognized Samples.watch_url -> 50 < 100 ->
        message = "2 validation errors for VideoQuery" +:+ Py.nl
                  +:+ "url" +:+ Py.nl
                  +:+ "  Invalid YouTube URL format (type=value_error)" +:+ Py.nl
                  +:+ "max_transcript_length" +:+ Py.nl
                  +:+ "  Transcript length must be at least 100 characters"
                  +:+ " (type=value_error)")
    /\ main.process_video Samples.bare Samples.watch_url 50 "en"
       = ([], Py.Returned
                (main.MkResponse "index.html" (main.ErrorPage message) 400)).
Proof.
  apply (proj2 (proj2 (video_query_validation Samples.bare Samples.watch_url 50 "en" false))).
  intros [_ H]. lia.
Defined.

Lemma unrecognized_url_rejected_witness :
  exists e1 e2,
    schemas.validate_youtube_url Samples.other_site = Py.Raised e1
    /\ schemas.extract_video_id (Samples.query Samples.other_site) = Py.Raised e2
    /\ e1 = Py.Exc Py.ValueError "Invalid YouTube URL format"
    /\ e2 = Py.Exc Py.ValueError "Could not extract video ID from URL"
    /\ Py.exc_cls e1 = Py.exc_cls e2.
Proof.
  apply (proj2 (unrecognized_url_rejected (Samples.query Samples.other_site))).
  intros H. apply contains_shape_iff_resolved in H. destruct H as [id H].
  vm_compute in H. discriminate.
Defined.

(** *** The formatter *)

Section Formatter.

Import main.

Variable video_info : gmap string Py.value.

Lemma prefix_app (label rest : string) : String.prefix label (label +:+ rest) = true.
Proof.
  induction label as [|c label IH]; simpl; [now destruct rest |].
  destruct (ascii_dec c c); [exact IH | congruence].
Qed.


Lemma truthy_spec (v : Py.value) :
  Py.truthy v = true <->
  v <> Py.VNone /\ v <> Py.VInt 0 /\ v <> Py.VStr EmptyString.
Proof.
  destruct v as [|n|t]; simpl.
  - split; [discriminate | intros (H & _); now elim H].
  - destruct (Z.eqb_spec n 0) as [->|Hn]; simpl.
    + split; [discriminate | intros (_ & H & _); now elim H].
    + split; [| reflexivity]. intros _. repeat split; congruence.
  - destruct (String.eqb_spec t EmptyString) as [->|Ht]; simpl.
    + split; [discriminate | intros (_ & _ & H); now elim H].
    + split; [| reflexivity]. intros _. repeat split; congruence.
Qed.

Lemma present_get (key : string) :
  Spec.present video_info key <-> Py.get video_info key <> Py.VNone.
Proof.
  unfold Spec.present, Py.get. destruct (video_info !! key) as [v|]; simpl.
  - split; [intros (w & [= <-] & H); exact H | intros H; eauto].
  - split; [intros (w & H & _); discriminate | intros H; now elim H].
Qed.


End Formatter.


Example full_record_document :
  main.format_output Samples.full_record (Some "never gonna"%string)
  = Py.Returned
      (Py.join Py.nl
         [ "# YouTube Video Documentation" +:+ Py.nl;
           "## Never Gonna Give You Up" +:+ Py.nl;
           "### Metadata" +:+ Py.nl;
           "- **Video ID**: dQw4w9WgXcQ";
           "- **Channel**: Rick Astley";
           "- **Duration**: 3m 33s";
           "- **Views**: 1,234,567,890";
           "- **Upload Date**: 20091025";
           "- **URL**: https://www.youtube.com/watch?v=dQw4w9WgXcQ" +:+ Py.nl;
           "### Description" +:+ Py.nl;
           "The official video";
           Py.nl;
           "### Transcript" +:+ Py.nl;
           "never gonna" ]).
Proof. vm_compute. reflexivity. Qed.

(* ================================================================== *)
(** ** Further properties of the code *)
(* ================================================================== *)

(** *** schemas.py: validator and resolver *)

Section SchemasMore.

Import schemas.

Lemma has_shape_suffix (host id u suffix : string) :
  Spec.has_shape host id u -> Spec.has_shape host id (u +:+ suffix).
Proof.
  intros (scheme & www & rest & Hs & Hw & Hid & ->).
  exists scheme, www, (rest +:+ suffix). parts.
  now rewrite !app_assoc_str.
Qed.

(** X1. The patterns carry no end anchor: whatever is appended to a URL
    that [validate_youtube_url] accepts, the validator accepts the
    longer string too, and returns it unchanged. *)
Theorem validator_ignores_suffix (v suffix : string) :
  validate_youtube_url v = Py.Returned v ->
  validate_youtube_url (v +:+ suffix) = Py.Returned (v +:+ suffix).
Proof.
  intros H. apply recognized_iff_validated in H. apply validate_recognized.
  destruct H as (host & id & Hin & Hs). exists host, id.
  split; [exact Hin | now apply has_shape_suffix].
Qed.

(** X2. [extract_video_id] returns an identifier exactly when one of
    the three shapes starts at some position of the URL, and otherwise
    raises [ValueError("Could not extract video ID from URL")]; what it
    returns is always eleven characters among letters, digits,
    underscore and hyphen, found in the URL right after the host of a
    shape. *)
Theorem resolver_characterisation (q : VideoQuery) :
  ((exists id, extract_video_id q = Py.Returned id) <-> Spec.contains_shape (url q))
  /\ (~ Spec.contains_shape (url q) ->
      extract_video_id q
      = Py.Raised (Py.Exc Py.ValueError "Could not extract video ID from URL"))
  /\ (forall id, extract_video_id q = Py.Returned id ->
      Spec.video_id_token id
      /\ exists host, In host Spec.hosts /\ Spec.occurs host (url q)
         /\ exists before_ rest, url q = before_ +:+ rest /\ Spec.has_shape host id rest).
Proof.
  split; [| split].
  - symmetry. apply contains_shape_iff_resolved.
  - intros Hnot. unfold extract_video_id. rewrite youtube_patterns_hosts.
    apply (extract_loop_spec Spec.hosts).
    intros (host & id & pre & suf & Hin & Hu & Hs). apply Hnot.
    exists pre, suf. split; [exact Hu |]. exists host, id. auto.
  - intros id H. unfold extract_video_id in H. rewrite youtube_patterns_hosts in H.
    apply extract_loop_returns in H. destruct H as (host & pre & suf & Hin & Hu & Hs).
    split; [destruct Hs as (? & ? & ? & _ & _ & Hid & _); exact Hid |].
    exists host. split; [exact Hin |]. split.
    + exists pre, suf, id. auto.
    + exists pre, suf. auto.
Qed.

Lemma in_youtube_patterns (p : re.pattern) :
  In p youtube_patterns -> exists host, In host Spec.hosts /\ p = url_pattern host.
Proof.
  rewrite youtube_patterns_hosts, in_map_iff. intros (host & <- & Hin). eauto.
Qed.

(** X3. At the start of a URL at most one of the three patterns
    matches, and then with one identifier: the order in which
    [validate_youtube_url] tries them does not matter. *)
Theorem patterns_exclusive (p p' : re.pattern) (u : string) (m m' : re.Match) :
  In p youtube_patterns -> In p' youtube_patterns ->
  re.match_ p u = Some m -> re.match_ p' u = Some m' ->
  p = p' /\ re.group_1 m = re.group_1 m'.
Proof.
  intros Hp Hp' Hm Hm'.
  apply in_youtube_patterns in Hp, Hp'.
  destruct Hp as (host & Hin & ->), Hp' as (host' & Hin' & ->).
  apply match_shape in Hm, Hm'.
  destruct (shape_unique host host' _ _ u Hin Hin' Hm Hm') as [-> Hid].
  split; [reflexivity | exact Hid].
Qed.

Lemma search_none_not_occurs (host u : string) :
  ~ Spec.occurs host u -> re.search (url_pattern host) u = None.
Proof.
  intros Hnot. destruct (re.search (url_pattern host) u) as [m|] eqn:Hm; [| reflexivity].
  exfalso. apply Hnot. apply search_sound in Hm. destruct Hm as (pre & suf & -> & Hm).
  exists pre, suf, (re.group_1 m). split; [reflexivity | now apply match_shape].
Qed.

Lemma search_shape_at_start (host id u : string) :
  In host Spec.hosts -> Spec.has_shape host id u ->
  exists m, re.search (url_pattern host) u = Some m /\ re.group_1 m = id.
Proof.
  intros Hin Hs. destruct (shape_match _ _ _ Hs) as [m Hm].
  exists m. split; [now apply search_of_match |].
  apply match_shape in Hm.
  now destruct (shape_unique host host _ _ u Hin Hin Hm Hs).
Qed.

(** X4. [extract_video_id] returns the identifier of the shape the URL
    starts with whenever no pattern tried before that of the shape
    occurs anywhere in the URL: always for a watch-page URL, for a short
    link when the watch-page shape occurs nowhere, for an embed URL when
    neither the watch-page nor the short-link shape occurs. *)
Theorem resolver_returns_validated_token (q : VideoQuery) (id : string) :
  (Spec.has_shape Spec.watch_page id (url q) -> extract_video_id q = Py.Returned id)
  /\ (Spec.has_shape Spec.short_link id (url q) ->
      ~ Spec.occurs Spec.watch_page (url q) ->
      extract_video_id q = Py.Returned id)
  /\ (Spec.has_shape Spec.embed_page id (url q) ->
      ~ Spec.occurs Spec.watch_page (url q) ->
      ~ Spec.occurs Spec.short_link (url q) ->
      extract_video_id q = Py.Returned id).
Proof.
  split; [apply watch_page_resolved |]. split.
  - intros Hs Hw. unfold extract_video_id. simpl.
    fold Spec.watch_page Spec.short_link.
    rewrite (search_none_not_occurs _ _ Hw).
    destruct (search_shape_at_start Spec.short_link id (url q)) as (m & -> & ->);
      [right; now left | exact Hs | reflexivity].
  - intros Hs Hw Hl. unfold extract_video_id. simpl.
    fold Spec.watch_page Spec.short_link Spec.embed_page.
    rewrite (search_none_not_occurs _ _ Hw), (search_none_not_occurs _ _ Hl).
    destruct (search_shape_at_start Spec.embed_page id (url q)) as (m & -> & ->);
      [right; right; now left | exact Hs | reflexivity].
Qed.

Lemma occurs_search (host u : string) :
  Spec.occurs host u -> is_Some (re.search (url_pattern host) u).
Proof.
  intros (pre & suf & id & -> & Hs). apply search_complete. now apply shape_match in Hs.
Qed.

(** A test of the identifiers by computation. *)
Lemma token_by_computation (id : string) :
  String.length id = 11%nat ->
  forallb id_char (list_ascii_of_string id) = true ->
  Spec.video_id_token id.
Proof.
  intros Hlen Hall. split; [exact Hlen |].
  apply List.Forall_forall. intros c Hc. apply id_char_alphabet.
  rewrite List.forallb_forall in Hall. now apply Hall.
Qed.

End SchemasMore.

Lemma validator_ignores_suffix_witness :
  schemas.validate_youtube_url (Samples.watch_url +:+ "&list=PL0123 and more")
  = Py.Returned (Samples.watch_url +:+ "&list=PL0123 and more").
Proof. apply validator_ignores_suffix. vm_compute. reflexivity. Defined.

Lemma resolver_characterisation_witness :
  schemas.extract_video_id (Samples.query Samples.other_site)
  = Py.Raised (Py.Exc Py.ValueError "Could not extract video ID from URL")
  /\ Spec.video_id_token "dQw4w9WgXcQ".
Proof.
  split.
  - apply (proj1 (proj2 (resolver_characterisation (Samples.query Samples.other_site)))).
    intros H. apply contains_shape_iff_resolved in H. destruct H as [id H].
    vm_compute in H. discriminate.
  - apply (proj2 (proj2 (resolver_characterisation (Samples.query Samples.mobile_url)))).
    vm_compute. reflexivity.
Defined.

(** X5. A URL accepted by the validator never reaches the error branch
    of [extract_video_id]: the resolver returns an identifier of eleven
    characters of the alphabet, found in the URL after the host of a
    shape. *)
Theorem validated_url_is_resolved (q : schemas.VideoQuery) :
  schemas.validate_youtube_url (schemas.url q) = Py.Returned (schemas.url q) ->
  exists id,
    schemas.extract_video_id q = Py.Returned id
    /\ Spec.video_id_token id
    /\ exists host before_ rest,
         In host Spec.hosts /\ schemas.url q = before_ +:+ rest
         /\ Spec.has_shape host id rest.
Proof. exact (resolver_total_on_validated q). Qed.

Lemma validated_url_is_resolved_witness :
  exists id,
    schemas.extract_video_id (Samples.query Samples.two_tokens) = Py.Returned id
    /\ Spec.video_id_token id
    /\ exists host before_ rest,
         In host Spec.hosts
         /\ schemas.url (Samples.query Samples.two_tokens) = before_ +:+ rest
         /\ Spec.has_shape host id rest.
Proof.
  apply (validated_url_is_resolved (Samples.query Samples.two_tokens)).
  vm_compute. reflexivity.
Defined.

Lemma patterns_exclusive_witness :
  schemas.url_pattern "youtu.be/" = schemas.url_pattern "youtu.be/"
  /\ re.group_1 (re.MkMatch "dQw4w9WgXcQ") = re.group_1 (re.MkMatch "dQw4w9WgXcQ").
Proof.
  apply (patterns_exclusive _ _ Samples.short_url).
  - right. left. reflexivity.
  - right. left. reflexivity.
  - vm_compute. reflexivity.
  - vm_compute. reflexivity.
Defined.

Lemma resolver_returns_validated_token_witness :
  schemas.extract_video_id (Samples.query Samples.short_url) = Py.Returned "dQw4w9WgXcQ".
Proof.
  apply (proj1 (proj2 (resolver_returns_validated_token
                         (Samples.query Samples.short_url) "dQw4w9WgXcQ"))).
  - exists "http://"%string, "www."%string, "?t=42"%string.
    split; [right; left; reflexivity |]. split; [right; left; reflexivity |].
    split; [| reflexivity].
    apply token_by_computation; reflexivity.
  - intros H. apply occurs_search in H. vm_compute in H. destruct H as [m H]. discriminate.
Defined.

(** *** processor.py: what a run does *)

Section ProcessorMore.

Import processor.

Lemma trace_try_except {A : Type} (m : Py.M A) (h : Py.exception -> Py.M A) :
  Py.trace (Py.try_except m h) =
  match Py.result m with
  | Py.Returned _ => Py.trace m
  | Py.Raised e => Py.trace m ++ Py.trace (h e)
  end.
Proof.
  destruct m as [tr [a|e]]; simpl; [reflexivity |].
  now destruct (h e).
Qed.

(** The selection only consults the list object: it performs no
    event. *)
Lemma select_transcript_silent (tl : TranscriptList) (language : string) :
  Py.trace (select_transcript tl language) = [].
Proof.
  unfold select_transcript.
  destruct (find_manually_created_transcript tl [language]) as [t|e]; [reflexivity |].
  destruct (find_generated_transcript tl [language]) as [t|e']; [reflexivity |].
  destruct (iter tl) as [ts|e'']; [| reflexivity].
  simpl. destruct (first_manual ts); [reflexivity |]. now destruct ts.
Qed.

Variables (env : Env) (self : YouTubeProcessor) (video_id language : string)
          (max_length : Z).

(** X6. The whole run of [_get_transcript] when the caption library and
    the formatter are there: the track list is asked for once; at most
    one track is fetched, the selected one, and formatted once; nothing
    is printed on success, and a failure of any stage prints
    "Transcript extraction failed: " followed by the text of the
    exception, as the last event. *)
Theorem get_transcript_run list_transcripts format_transcript :
  YouTubeTranscriptApi env = Some list_transcripts ->
  text_formatter self = Some format_transcript ->
  _get_transcript env self video_id language max_length =
  match list_transcripts video_id with
  | Py.Raised e =>
      ([Py.CallListTranscripts video_id;
        Py.Stdout ("Transcript extraction failed: " +:+ Py.exc_str e)],
       Py.Returned (None, None))
  | Py.Returned tl =>
      match Py.result (select_transcript tl language) with
      | Py.Raised e =>
          ([Py.CallListTranscripts video_id;
            Py.Stdout ("Transcript extraction failed: " +:+ Py.exc_str e)],
           Py.Returned (None, None))
      | Py.Returned (None, _) =>
          ([Py.CallListTranscripts video_id], Py.Returned (None, None))
      | Py.Returned (Some t, detected) =>
          match fetch t with
          | Py.Raised e =>
              ([Py.CallListTranscripts video_id; Py.CallFetch (language_code t);
                Py.Stdout ("Transcript extraction failed: " +:+ Py.exc_str e)],
               Py.Returned (None, None))
          | Py.Returned fetched =>
              match format_transcript fetched with
              | Py.Raised e =>
                  ([Py.CallListTranscripts video_id; Py.CallFetch (language_code t);
                    Py.CallFormatTranscript;
                    Py.Stdout ("Transcript extraction failed: " +:+ Py.exc_str e)],
                   Py.Returned (None, None))
              | Py.Returned text =>
                  ([Py.CallListTranscripts video_id; Py.CallFetch (language_code t);
                    Py.CallFormatTranscript],
                   Py.Returned (Some (trim text max_length), Some detected))
              end
          end
      end
  end.
Proof.
  intros Hl Hf. unfold _get_transcript. rewrite Hl, Hf. unfold extract_transcript.
  unfold Py.call at 1.
  destruct (list_transcripts video_id) as [tl|e]; [| reflexivity].
  pose proof (select_transcript_silent tl language) as Hsil.
  unfold Py.bind at 1. cbv beta iota.
  destruct (select_transcript tl language) as [tr [[[t|] detected]|e]];
    simpl in Hsil; subst tr; try reflexivity.
  simpl. unfold Py.call.
  destruct (fetch t) as [fetched|e]; [| reflexivity].
  simpl. destruct (format_transcript fetched) as [text|e]; reflexivity.
Qed.

Lemma transcript_pair (text : option string) (detected : option string) :
  Py.result (_get_transcript env self video_id language max_length)
  = Py.Returned (text, detected) ->
  (text = None <-> detected = None).
Proof.
  rewrite get_transcript_result.
  destruct (YouTubeTranscriptApi env) as [l|], (text_formatter self) as [f|];
    try (intros [= <- <-]; tauto).
  rewrite extract_transcript_result.
  destruct (l video_id) as [tl|]; try (intros [= <- <-]; tauto).
  destruct (Py.result (select_transcript tl language)) as [[[t|] d]|];
    try (intros [= <- <-]; tauto).
  destruct (fetch t) as [ft|]; try (intros [= <- <-]; tauto).
  destruct (f ft); intros [= <- <-]; try tauto.
  split; discriminate.
Qed.

Lemma transcript_returns :
  exists r, Py.result (_get_transcript env self video_id language max_length) = Py.Returned r.
Proof.
  rewrite get_transcript_result.
  destruct (YouTubeTranscriptApi env) as [l|], (text_formatter self) as [f|]; eauto.
  rewrite extract_transcript_result.
  destruct (l video_id) as [tl|]; eauto.
  destruct (Py.result (select_transcript tl language)) as [[[t|] d]|]; eauto.
  destruct (fetch t) as [ft|]; eauto.
  destruct (f ft); eauto.
Qed.

(** X7. [_get_transcript] returns a text and a language together or
    neither of them. *)
Theorem transcript_and_language_together (text : option string) (detected : option string) :
  Py.result (_get_transcript env self video_id language max_length)
  = Py.Returned (text, detected) ->
  (text = None <-> detected = None).
Proof. exact (transcript_pair text detected). Qed.

(** The second and third tiers of the metadata chain, as a run. *)
Lemma pytube_trace (yt : string -> Py.outcome PytubeVideo) (url : string) :
  Py.trace (_get_video_info_pytube yt url) = [Py.CallPytube url].
Proof.
  unfold _get_video_info_pytube, Py.call, Py.lift.
  destruct (yt url) as [v|e]; [| reflexivity]. simpl.
  destruct (yt_title v); [| reflexivity]. simpl.
  destruct (yt_description v); [| reflexivity]. simpl.
  destruct (yt_length v); [| reflexivity]. simpl.
  destruct (yt_views v); [| reflexivity]. simpl.
  destruct (yt_author v); [| reflexivity]. simpl.
  destruct (yt_publish_date v); [| reflexivity]. simpl.
  destruct (yt_video_id v); [| reflexivity]. simpl.
  destruct (yt_thumbnail_url v); reflexivity.
Qed.

Lemma yt_dlp_trace (extract_info : string -> Py.outcome (gmap string Py.value))
    (url : string) :
  Py.trace (_get_video_info_yt_dlp extract_info video_id url) = [Py.CallExtractInfo url].
Proof.
  unfold _get_video_info_yt_dlp, Py.call. now destruct (extract_info url).
Qed.

Variable url : string.

Lemma get_video_info_cases :
  _get_video_info env video_id url =
  let tier2 :=
    match YouTube env with
    | Some yt =>
        match Py.result (_get_video_info_pytube yt url) with
        | Py.Returned record => ([Py.CallPytube url], Py.Returned record)
        | Py.Raised e =>
            ([Py.CallPytube url; Py.Stdout ("pytube failed: " +:+ Py.exc_str e)],
             Py.Returned (minimal_fallback video_id url))
        end
    | None => ([], Py.Returned (minimal_fallback video_id url))
    end in
  match yt_dlp env with
  | Some extract_info =>
      match Py.result (_get_video_info_yt_dlp extract_info video_id url) with
      | Py.Returned record => ([Py.CallExtractInfo url], Py.Returned record)
      | Py.Raised e =>
          (Py.CallExtractInfo url :: Py.Stdout ("yt-dlp failed: " +:+ Py.exc_str e)
             :: fst tier2,
           snd tier2)
      end
  | None => tier2
  end.
Proof.
  cbv zeta. unfold _get_video_info.
  assert (H2 : match YouTube env with
    | Some yt =>
        Py.try_except (_get_video_info_pytube yt url)
          (fun e => do* Py.print ("pytube failed: " +:+ Py.exc_str e)
                    in Py.ret (minimal_fallback video_id url))
    | None => Py.ret (minimal_fallback video_id url)
    end =
    match YouTube env with
    | Some yt =>
        match Py.result (_get_video_info_pytube yt url) with
        | Py.Returned record => ([Py.CallPytube url], Py.Returned record)
        | Py.Raised e =>
            ([Py.CallPytube url; Py.Stdout ("pytube failed: " +:+ Py.exc_str e)],
             Py.Returned (minimal_fallback video_id url))
        end
    | None => ([], Py.Returned (minimal_fallback video_id url))
    end).
  { destruct (YouTube env) as [yt|]; [| reflexivity].
    pose proof (pytube_trace yt url) as Ht.
    destruct (_get_video_info_pytube yt url) as [tr [r|e]]; simpl in Ht; subst tr;
      reflexivity. }
  rewrite H2. clear H2.
  destruct (yt_dlp env) as [x|]; [| reflexivity].
  pose proof (yt_dlp_trace x url) as Ht.
  destruct (_get_video_info_yt_dlp x video_id url) as [tr [r|e]]; simpl in Ht; subst tr;
    [reflexivity |].
  simpl.
  destruct (YouTube env) as [yt|]; [| reflexivity].
  destruct (Py.result (_get_video_info_pytube yt url)); reflexivity.
Qed.

Lemma video_info_returns :
  exists record, Py.result (_get_video_info env video_id url) = Py.Returned record.
Proof.
  rewrite get_video_info_cases. cbv zeta.
  assert (H2 : exists r,
    snd (match YouTube env with
     | Some yt =>
        match Py.result (_get_video_info_pytube yt url) with
        | Py.Returned record => ([Py.CallPytube url], Py.Returned record)
        | Py.Raised e =>
            ([Py.CallPytube url; Py.Stdout ("pytube failed: " +:+ Py.exc_str e)],
             Py.Returned (minimal_fallback video_id url))
        end
     | None => ([], Py.Returned (minimal_fallback video_id url))
     end) = Py.Returned r).
  { destruct (YouTube env) as [yt|]; [| simpl; eauto].
    destruct (Py.result (_get_video_info_pytube yt url)); simpl; eauto. }
  destruct (yt_dlp env) as [x|]; [| exact H2].
  destruct (Py.result (_get_video_info_yt_dlp x video_id url)); [simpl; eauto | exact H2].
Qed.

(** X8. The whole run of [_get_video_info]: yt-dlp is called first and,
    when it returns, its record is the answer, pytube is not called and
    nothing is printed; when it raises, "yt-dlp failed: " and the text
    of the exception are printed and pytube is called, if installed;
    when pytube raises too, "pytube failed: " and the text are printed
    and the minimal record is returned. *)
Theorem get_video_info_run :
  _get_video_info env video_id url =
  let tier2 :=
    match YouTube env with
    | Some yt =>
        match Py.result (_get_video_info_pytube yt url) with
        | Py.Returned record => ([Py.CallPytube url], Py.Returned record)
        | Py.Raised e =>
            ([Py.CallPytube url; Py.Stdout ("pytube failed: " +:+ Py.exc_str e)],
             Py.Returned (minimal_fallback video_id url))
        end
    | None => ([], Py.Returned (minimal_fallback video_id url))
    end in
  match yt_dlp env with
  | Some extract_info =>
      match Py.result (_get_video_info_yt_dlp extract_info video_id url) with
      | Py.Returned record => ([Py.CallExtractInfo url], Py.Returned record)
      | Py.Raised e =>
          (Py.CallExtractInfo url :: Py.Stdout ("yt-dlp failed: " +:+ Py.exc_str e)
             :: fst tier2,
           snd tier2)
      end
  | None => tier2
  end.
Proof. exact get_video_info_cases. Qed.

(** X9. Whatever tier answers, the record returned by [_get_video_info]
    has exactly the nine keys of the metadata and its [url] is the URL
    that was asked for. *)
Theorem video_info_record_shape (record : gmap string Py.value) :
  Py.result (_get_video_info env video_id url) = Py.Returned record ->
  dom record = list_to_set Spec.record_keys
  /\ record !! "url" = Some (Py.VStr url).
Proof.
  rewrite get_video_info_cases. cbv zeta.
  assert (Hmin : dom (minimal_fallback video_id url) = list_to_set Spec.record_keys
                 /\ minimal_fallback video_id url !! "url" = Some (Py.VStr url)).
  { split; [| reflexivity]. unfold minimal_fallback. now rewrite dom_list_to_map_L. }
  assert (H2 : forall yt r,
            Py.result (_get_video_info_pytube yt url) = Py.Returned r ->
            dom r = list_to_set Spec.record_keys /\ r !! "url" = Some (Py.VStr url)).
  { intros yt r. unfold _get_video_info_pytube, Py.call, Py.lift.
    destruct (yt url) as [v|e]; [| discriminate]. simpl.
    destruct (yt_title v); [| discriminate]. simpl.
    destruct (yt_description v); [| discriminate]. simpl.
    destruct (yt_length v); [| discriminate]. simpl.
    destruct (yt_views v); [| discriminate]. simpl.
    destruct (yt_author v); [| discriminate]. simpl.
    destruct (yt_publish_date v); [| discriminate]. simpl.
    destruct (yt_video_id v); [| discriminate]. simpl.
    destruct (yt_thumbnail_url v); [| discriminate]. simpl.
    intros [= <-]. split; [| reflexivity].
    rewrite !dom_insert_L, dom_empty_L. reflexivity. }
  assert (H1 : forall x r,
            Py.result (_get_video_info_yt_dlp x video_id url) = Py.Returned r ->
            dom r = list_to_set Spec.record_keys /\ r !! "url" = Some (Py.VStr url)).
  { intros x r. unfold _get_video_info_yt_dlp, Py.call.
    destruct (x url) as [info|e]; [| discriminate]. simpl.
    intros [= <-]. split; [| reflexivity].
    rewrite !dom_insert_L, dom_empty_L. reflexivity. }
  assert (Htier2 : forall r,
    snd (match YouTube env with
     | Some yt =>
        match Py.result (_get_video_info_pytube yt url) with
        | Py.Returned record => ([Py.CallPytube url], Py.Returned record)
        | Py.Raised e =>
            ([Py.CallPytube url; Py.Stdout ("pytube failed: " +:+ Py.exc_str e)],
             Py.Returned (minimal_fallback video_id url))
        end
     | None => ([], Py.Returned (minimal_fallback video_id url))
     end) = Py.Returned r ->
     dom r = list_to_set Spec.record_keys /\ r !! "url" = Some (Py.VStr url)).
  { intros r. destruct (YouTube env) as [yt|]; [| now intros [= <-]].
    destruct (Py.result (_get_video_info_pytube yt url)) as [r'|e] eqn:Hr.
    - intros [= <-]. now apply (H2 yt).
    - now intros [= <-]. }
  destruct (yt_dlp env) as [x|]; [| apply Htier2].
  destruct (Py.result (_get_video_info_yt_dlp x video_id url)) as [r'|e] eqn:Hr.
  - intros [= <-]. now apply (H1 x).
  - apply Htier2.
Qed.

End ProcessorMore.

Section ProcessorRun.

Import processor.

Variables (env : Env) (self : YouTubeProcessor).

(** X10. [process_video] of the processor raises only when no
    identifier can be extracted, and then before any provider is called.
    With an identifier it never raises: it performs the events of the
    metadata fetch, then those of the transcript fetch; it returns the
    record of the first and the text of the second, records the detected
    language in the record when there is one, and its third component is
    always [None]. *)
Theorem processor_run (query : schemas.VideoQuery) :
  match schemas.extract_video_id query with
  | Py.Raised e => process_video env self query = ([], Py.Raised e)
  | Py.Returned id =>
      exists record text detected,
        Py.result (_get_video_info env id (schemas.url query)) = Py.Returned record
        /\ Py.result (_get_transcript env self id (schemas.language query)
                        (schemas.max_transcript_length query))
           = Py.Returned (text, detected)
        /\ process_video env self query
           = (Py.trace (_get_video_info env id (schemas.url query))
              ++ Py.trace (_get_transcript env self id (schemas.language query)
                             (schemas.max_transcript_length query)),
              Py.Returned
                (match detected with
                 | Some l =>
                     if Py.truthy (Py.VStr l)
                     then <["detected_transcript_language" := Py.VStr l]> record
                     else record
                 | None => record
                 end, text, None))
        /\ (text = None -> detected = None)
  end.
Proof.
  unfold process_video.
  destruct (schemas.extract_video_id query) as [id|e]; [| reflexivity].
  destruct (video_info_returns env id (schemas.url query)) as [record Hr].
  destruct (transcript_returns env self id (schemas.language query)
              (schemas.max_transcript_length query)) as [[text detected] Ht].
  exists record, text, detected.
  split; [exact Hr |]. split; [exact Ht |]. split.
  - unfold Py.bind at 1, Py.lift. cbv beta iota.
    destruct (_get_video_info env id (schemas.url query)) as [tr1 r1].
    simpl in Hr. subst r1.
    destruct (_get_transcript env self id (schemas.language query)
                (schemas.max_transcript_length query)) as [tr2 r2].
    simpl in Ht. subst r2. simpl. now rewrite app_nil_r.
  - intros ->.
    now apply (transcript_pair env self id (schemas.language query)
                 (schemas.max_transcript_length query) None detected Ht).
Qed.

End ProcessorRun.

Section SelectionMore.

Import processor.

Lemma find_first_some {A} (f : A -> bool) (l : list A) (x : A) :
  List.find f l = Some x -> In x l /\ f x = true.
Proof. apply List.find_some. Qed.

(** X11. On the track list of the caption library the selection never
    raises.  It returns a track exactly when the video has one: with no
    track it returns none, with the requested language as detected
    language, and with at least one track it returns one.  The selected
    track is one of the tracks of the video; the detected language is
    always its language code; and a generated track in another language
    than the requested one is selected only when the video has no manual
    track at all. *)
Theorem selection_invariants (tracks : list Transcript) (language : string) :
  (forall t detected,
     Py.result (select_transcript (transcript_list_of tracks) language)
     = Py.Returned (Some t, detected) ->
     In t tracks
     /\ detected = language_code t
     /\ (is_generated t = true -> language_code t <> language ->
         forall t', In t' tracks -> is_generated t' = true))
  /\ ((exists detected,
         Py.result (select_transcript (transcript_list_of tracks) language)
         = Py.Returned (None, detected))
      <-> tracks = [])
  /\ (tracks = [] ->
      Py.result (select_transcript (transcript_list_of tracks) language)
      = Py.Returned (None, language))
  /\ (tracks <> [] ->
      exists t detected,
        Py.result (select_transcript (transcript_list_of tracks) language)
        = Py.Returned (Some t, detected))
  /\ (exists selection,
        Py.result (select_transcript (transcript_list_of tracks) language)
        = Py.Returned selection).
Proof.
  rewrite select_transcript_policy. simpl Py.result. unfold Spec.selection_policy.
  destruct (List.find (Spec.manual_in language) tracks) as [t1|] eqn:H1.
  { apply find_first_some in H1. destruct H1 as [Hin Hp].
    unfold Spec.manual_in in Hp. apply andb_true_iff in Hp. destruct Hp as [Hg Hc].
    apply String.eqb_eq in Hc. split; [| split; [| split; [| split]]].
    - intros t d [= <- <-]. split; [exact Hin |]. split; [now rewrite Hc |].
      intros Hgen. rewrite Hgen in Hg. discriminate.
    - split; [intros [d H]; discriminate | intros ->; destruct Hin].
    - intros ->. destruct Hin.
    - intros _. eauto.
    - eauto. }
  destruct (List.find (Spec.generated_in language) tracks) as [t2|] eqn:H2.
  { apply find_first_some in H2. destruct H2 as [Hin Hp].
    unfold Spec.generated_in in Hp. apply andb_true_iff in Hp. destruct Hp as [Hg Hc].
    apply String.eqb_eq in Hc. split; [| split; [| split; [| split]]].
    - intros t d [= <- <-]. split; [exact Hin |]. split; [now rewrite Hc |].
      intros _ Hne. now elim Hne.
    - split; [intros [d H]; discriminate | intros ->; destruct Hin].
    - intros ->. destruct Hin.
    - intros _. eauto.
    - eauto. }
  destruct (List.find (fun t => negb (is_generated t)) tracks) as [t3|] eqn:H3.
  { apply find_first_some in H3. destruct H3 as [Hin Hp].
    split; [| split; [| split; [| split]]].
    - intros t d [= <- <-]. split; [exact Hin |]. split; [reflexivity |].
      intros Hgen. rewrite Hgen in Hp. discriminate.
    - split; [intros [d H]; discriminate | intros ->; destruct Hin].
    - intros ->. destruct Hin.
    - intros _. eauto.
    - eauto. }
  destruct tracks as [|t4 rest].
  - split; [| split; [| split; [| split]]].
    + intros t d H. discriminate.
    + split; [reflexivity | intros _; eauto].
    + reflexivity.
    + intros H. now elim H.
    + eauto.
  - split; [| split; [| split; [| split]]].
    + intros t d [= <- <-]. split; [now left |]. split; [reflexivity |].
      intros _ _ t' Hin'. pose proof (List.find_none _ _ H3 t' Hin') as Hn.
      simpl in Hn. now destruct (is_generated t').
    + split; [intros [d H]; discriminate | discriminate].
    + discriminate.
    + intros _. eauto.
    + eauto.
Qed.

End SelectionMore.

Lemma selection_invariants_witness :
  (In Samples.fr_auto [Samples.fr_auto; Samples.ja_broken]
   /\ "fr"%string = processor.language_code Samples.fr_auto
   /\ (processor.is_generated Samples.fr_auto = true ->
       processor.language_code Samples.fr_auto <> "en"%string ->
       forall t', In t' [Samples.fr_auto; Samples.ja_broken] ->
                  processor.is_generated t' = true))
  /\ (exists t detected,
        Py.result (processor.select_transcript
                     (processor.transcript_list_of [Samples.fr_auto; Samples.ja_broken])
                     "en")
        = Py.Returned (Some t, detected))
  /\ Py.result (processor.select_transcript (processor.transcript_list_of []) "en")
     = Py.Returned (None, "en"%string).
Proof.
  split; [| split].
  - apply (proj1 (selection_invariants [Samples.fr_auto; Samples.ja_broken] "en")).
    vm_compute. reflexivity.
  - apply (proj1 (proj2 (proj2 (proj2
             (selection_invariants [Samples.fr_auto; Samples.ja_broken] "en"))))).
    discriminate.
  - apply (proj1 (proj2 (proj2 (selection_invariants [] "en")))). reflexivity.
Defined.

Lemma get_transcript_run_witness :
  processor._get_transcript (Samples.captions [Samples.ja_broken])
    (processor.init (Samples.captions [Samples.ja_broken])) Samples.rick "en" 10000
  = ([Py.CallListTranscripts Samples.rick; Py.CallFetch "ja";
      Py.Stdout "Transcript extraction failed: disabled"],
     Py.Returned (None, None)).
Proof.
  rewrite (get_transcript_run (Samples.captions [Samples.ja_broken])
             (processor.init (Samples.captions [Samples.ja_broken]))
             Samples.rick "en" 10000 _ _ eq_refl eq_refl).
  vm_compute. reflexivity.
Defined.

Lemma transcript_and_language_together_witness :
  (Some "niemals"%string = None <-> Some "de"%string = None).
Proof.
  apply (transcript_and_language_together
           (Samples.captions [Samples.fr_auto; Samples.de_manual])
           (processor.init (Samples.captions [Samples.fr_auto; Samples.de_manual]))
           Samples.rick "en" 10000).
  vm_compute. reflexivity.
Defined.

Lemma video_info_record_shape_witness :
  dom (processor.minimal_fallback Samples.rick Samples.watch_url)
  = list_to_set Spec.record_keys
  /\ processor.minimal_fallback Samples.rick Samples.watch_url !! "url"
     = Some (Py.VStr Samples.watch_url).
Proof.
  apply (video_info_record_shape Samples.offline Samples.rick Samples.watch_url).
  vm_compute. reflexivity.
Defined.

(** *** main.py: the request handler *)

Section Handler.

Import main.

Variables (env : processor.Env) (url : string) (max_transcript_length : Z)
          (language : string).

(** The handler, stage by stage. *)
Lemma handler_cases :
  Py.result (process_video env url max_transcript_length language) =
  match schemas.new_VideoQuery url max_transcript_length language false with
  | Py.Raised e => Py.Returned (Spec.error_response e)
  | Py.Returned query =>
      match Py.result (processor.process_video env (processor.init env) query) with
      | Py.Raised e => Py.Returned (Spec.error_response e)
      | Py.Returned (video_info, transcript, _) =>
          match format_output video_info transcript with
          | Py.Raised e => Py.Returned (Spec.error_response e)
          | Py.Returned output =>
              Py.Returned
                (MkResponse "result.html"
                   (ResultPage video_info output (estimate_tokens env output)
                      (match transcript with Some _ => true | None => false end))
                   200)
          end
      end
  end.
Proof.
  unfold process_video, Spec.error_response.
  rewrite result_try_except, result_bind, result_lift.
  destruct (schemas.new_VideoQuery url max_transcript_length language false) as [q|e].
  - rewrite result_bind.
    destruct (Py.result (processor.process_video env (processor.init env) q))
      as [[[info tr] c]|e].
    + rewrite result_bind, result_lift.
      destruct (format_output info tr) as [out|e]; [reflexivity |].
      now destruct (Py.is_ValueError e).
    + now destruct (Py.is_ValueError e).
  - now destruct (Py.is_ValueError e).
Qed.

Lemma handler_answers :
  exists response,
    Py.result (process_video env url max_transcript_length language)
    = Py.Returned response
    /\ ((status_code response = 200 /\ template response = "result.html"
         /\ exists video_info output token_count available,
              page response = ResultPage video_info output token_count available)
        \/ (status_code response = 400 /\ template response = "index.html"
            /\ exists message, page response = ErrorPage message)
        \/ (status_code response = 500 /\ template response = "index.html"
            /\ exists message,
                 page response = ErrorPage ("Error processing video: " +:+ message))).
Proof.
  assert (Herr : forall e,
    (status_code (Spec.error_response e) = 400 /\ template (Spec.error_response e) = "index.html"
     /\ exists message, page (Spec.error_response e) = ErrorPage message)
    \/ (status_code (Spec.error_response e) = 500 /\ template (Spec.error_response e) = "index.html"
        /\ exists message,
             page (Spec.error_response e) = ErrorPage ("Error processing video: " +:+ message))).
  { intros e. unfold Spec.error_response. destruct (Py.is_ValueError e); simpl; eauto 10. }
  rewrite handler_cases.
  destruct (schemas.new_VideoQuery url max_transcript_length language false) as [q|e];
    [| eexists; split; [reflexivity | right; apply Herr]].
  destruct (Py.result (processor.process_video env (processor.init env) q))
    as [[[info tr] c]|e]; [| eexists; split; [reflexivity | right; apply Herr]].
  destruct (format_output info tr) as [out|e];
    [| eexists; split; [reflexivity | right; apply Herr]].
  eexists. split; [reflexivity |]. left. simpl. eauto 10.
Qed.

(** X12. The route [/process] never raises, whatever the limiter
    decides.  A request over the quota is answered with the form page,
    the message "Rate limit exceeded. Please try again later." and
    status 429, and nothing else happens: no provider is called.  A
    request within the quota is answered by the handler: with the
    result page and status 200, or with the form page carrying a
    message and status 400, or with the form page carrying
    "Error processing video: ..." and status 500. *)
Theorem route_always_answers (exceeded : bool) :
  (exceeded = true ->
   process_route env exceeded url max_transcript_length language
   = ([], Py.Returned
            (MkResponse "index.html"
               (ErrorPage "Rate limit exceeded. Please try again later.") 429)))
  /\ (exceeded = false ->
      process_route env exceeded url max_transcript_length language
      = process_video env url max_transcript_length language)
  /\ exists response,
       Py.result (process_route env exceeded url max_transcript_length language)
       = Py.Returned response
       /\ ((exceeded = true /\ status_code response = 429
            /\ template response = "index.html"
            /\ page response = ErrorPage "Rate limit exceeded. Please try again later.")
           \/ (exceeded = false /\ status_code response = 200
               /\ template response = "result.html"
               /\ exists video_info output token_count available,
                    page response = ResultPage video_info output token_count available)
           \/ (exceeded = false /\ status_code response = 400
               /\ template response = "index.html"
               /\ exists message, page response = ErrorPage message)
           \/ (exceeded = false /\ status_code response = 500
               /\ template response = "index.html"
               /\ exists message,
                    page response = ErrorPage ("Error processing video: " +:+ message))).
Proof.
  unfold process_route. destruct exceeded.
  - split; [reflexivity |]. split; [discriminate |].
    eexists. split; [reflexivity |]. left. simpl. auto.
  - split; [discriminate |]. split; [reflexivity |].
    destruct handler_answers as (response & Hr & H).
    exists response. split; [exact Hr |]. right.
    destruct H as [H | [H | H]]; [left | right; left | right; right]; split; auto.
Qed.

Lemma new_query_valid :
  schemas.validate_youtube_url url = Py.Returned url ->
  100 <= max_transcript_length ->
  schemas.new_VideoQuery url max_transcript_length language false
  = Py.Returned (schemas.MkVideoQuery url max_transcript_length false language).
Proof.
  intros Hv Hlen. unfold schemas.new_VideoQuery, schemas.validate_transcript_length.
  rewrite Hv. destruct (Z.ltb_spec max_transcript_length 100); [lia | reflexivity].
Qed.

Lemma processor_result (q : schemas.VideoQuery) (id : string) :
  schemas.extract_video_id q = Py.Returned id ->
  Py.result (processor.process_video env (processor.init env) q) =
  match Py.result (processor._get_video_info env id (schemas.url q)),
        Py.result (processor._get_transcript env (processor.init env) id
                     (schemas.language q) (schemas.max_transcript_length q)) with
  | Py.Returned record, Py.Returned (text, detected) =>
      Py.Returned
        (match detected with
         | Some l =>
             if Py.truthy (Py.VStr l)
             then <["detected_transcript_language" := Py.VStr l]> record
             else record
         | None => record
         end, text, None)
  | Py.Raised e, _ => Py.Raised e
  | Py.Returned _, Py.Raised e => Py.Raised e
  end.
Proof.
  intros Hid. unfold processor.process_video.
  rewrite result_bind, result_lift, Hid, result_bind.
  destruct (Py.result (processor._get_video_info env id (schemas.url q))) as [r|e];
    [| reflexivity].
  rewrite result_bind.
  destruct (Py.result (processor._get_transcript env (processor.init env) id
                         (schemas.language q) (schemas.max_transcript_length q)))
    as [[text detected]|e]; reflexivity.
Qed.

(** X13. A valid request whose providers all fail is still answered
    with the result page: when both metadata tiers are down and no
    transcript is obtained, the document is the one of the minimal
    record, with "Video <id>", "Unknown Channel", "0s", the description
    "Description not available" and the line
    "*Transcript not available for this video.*"; the transcript is
    reported as not available and the status is 200. *)
Theorem degraded_document (id : string) :
  schemas.validate_youtube_url url = Py.Returned url ->
  100 <= max_transcript_length ->
  schemas.extract_video_id (schemas.MkVideoQuery url max_transcript_length false language)
  = Py.Returned id ->
  Spec.tier1_down env id url -> Spec.tier2_down env url ->
  Py.result (processor._get_transcript env (processor.init env) id language
               max_transcript_length)
  = Py.Returned (None, None) ->
  let document :=
    Py.join Py.nl
      [ "# YouTube Video Documentation" +:+ Py.nl;
        "## Video " +:+ id +:+ Py.nl;
        "### Metadata" +:+ Py.nl;
        "- **Video ID**: " +:+ id;
        "- **Channel**: Unknown Channel";
        "- **Duration**: 0s";
        "- **URL**: " +:+ url +:+ Py.nl;
        "### Description" +:+ Py.nl;
        "Description not available";
        Py.nl;
        "### Transcript" +:+ Py.nl;
        "*Transcript not available for this video.*" +:+ Py.nl ] in
  Py.result (process_video env url max_transcript_length language)
  = Py.Returned
      (MkResponse "result.html"
         (ResultPage (processor.minimal_fallback id url) document
            (estimate_tokens env document) false)
         200).
Proof.
  intros Hv Hlen Hid H1 H2 Ht document.
  assert (Hinfo : Py.result (processor._get_video_info env id url)
                  = Py.Returned (processor.minimal_fallback id url)).
  { rewrite get_video_info_cases. cbv zeta.
    unfold Spec.tier1_down in H1. unfold Spec.tier2_down in H2.
    assert (G : snd (match processor.YouTube env with
       | Some yt =>
          match Py.result (processor._get_video_info_pytube yt url) with
          | Py.Returned record => ([Py.CallPytube url], Py.Returned record)
          | Py.Raised e =>
              ([Py.CallPytube url; Py.Stdout ("pytube failed: " +:+ Py.exc_str e)],
               Py.Returned (processor.minimal_fallback id url))
          end
       | None => ([], Py.Returned (processor.minimal_fallback id url))
       end) = Py.Returned (processor.minimal_fallback id url)).
    { destruct (processor.YouTube env) as [yt|]; [| reflexivity].
      destruct H2 as [e ->]. reflexivity. }
    destruct (processor.yt_dlp env) as [x|]; [| exact G].
    destruct H1 as [e ->]. exact G. }
  rewrite handler_cases, (new_query_valid Hv Hlen), (processor_result _ id Hid).
  simpl schemas.url. simpl schemas.language. simpl schemas.max_transcript_length.
  rewrite Hinfo, Ht. reflexivity.
Qed.

(** X14. A record without a duration fails the request: when yt-dlp
    answers with a [duration] that is [None] (a live stream), a valid
    request is answered with status 500 and the message of the
    [TypeError] of the division in [format_duration]. *)
Theorem missing_duration_is_a_server_error (id : string)
    (extract_info : string -> Py.outcome (gmap string Py.value))
    (info : gmap string Py.value) :
  schemas.validate_youtube_url url = Py.Returned url ->
  100 <= max_transcript_length ->
  schemas.extract_video_id (schemas.MkVideoQuery url max_transcript_length false language)
  = Py.Returned id ->
  processor.yt_dlp env = Some extract_info ->
  extract_info url = Py.Returned info ->
  info !! "duration" = Some Py.VNone ->
  Py.result (process_video env url max_transcript_length language)
  = Py.Returned
      (MkResponse "index.html"
         (ErrorPage ("Error processing video: "
                     +:+ "unsupported operand type(s) for //: 'NoneType' and 'int'"))
         500).
Proof.
  intros Hv Hlen Hid Hy Hx Hd.
  rewrite handler_cases, (new_query_valid Hv Hlen), (processor_result _ id Hid).
  simpl schemas.url. simpl schemas.language. simpl schemas.max_transcript_length.
  rewrite get_video_info_cases. cbv zeta. rewrite Hy.
  unfold processor._get_video_info_yt_dlp at 1.
  rewrite result_bind, result_call, Hx, result_ret.
  destruct (transcript_returns env (processor.init env) id language max_transcript_length)
    as [[text detected] ->].
  assert (Hfail : forall record transcript,
            Py.get_default record "duration" (Py.VInt 0) = Py.VNone ->
            format_output record transcript
            = Py.Raised (Py.Exc Py.TypeError
                           "unsupported operand type(s) for //: 'NoneType' and 'int'")).
  { intros record transcript Hg.
    unfold format_output, output_lines, metadata_lines, duration_text.
    now rewrite Hg. }
  assert (Hg : forall r : gmap string Py.value,
            r !! "duration" = Some Py.VNone ->
            Py.get_default r "duration" (Py.VInt 0) = Py.VNone).
  { intros r Hr. unfold Py.get_default. now rewrite Hr. }
  assert (Hrec : (list_to_map
         [ ("title", Py.get_default info "title" (Py.VStr "Unknown Title"));
           ("description", Py.get_default info "description" (Py.VStr EmptyString));
           ("duration", Py.get_default info "duration" (Py.VInt 0));
           ("view_count", Py.get info "view_count");
           ("channel", Py.get_default info "uploader" (Py.VStr "Unknown Channel"));
           ("upload_date", Py.get info "upload_date");
           ("url", Py.VStr url);
           ("video_id", Py.VStr id);
           ("thumbnail_url", Py.get info "thumbnail") ] : gmap string Py.value)
         !! "duration" = Some Py.VNone).
  { rewrite <- (Hg info Hd). reflexivity. }
  cbn [Py.result snd].
  destruct detected as [l|].
  - destruct (Py.truthy (Py.VStr l)).
    + rewrite Hfail; [reflexivity |]. apply Hg.
      rewrite lookup_insert_ne by discriminate. exact Hrec.
    + rewrite Hfail; [reflexivity |]. now apply Hg.
  - rewrite Hfail; [reflexivity |]. now apply Hg.
Qed.

End Handler.

Lemma route_always_answers_witness :
  main.process_route Samples.bare true Samples.watch_url 10000 "en"
  = ([], Py.Returned
           (main.MkResponse "index.html"
              (main.ErrorPage "Rate limit exceeded. Please try again later.") 429))
  /\ main.process_route Samples.bare false Samples.watch_url 10000 "en"
     = main.process_video Samples.bare Samples.watch_url 10000 "en".
Proof.
  split.
  - apply (proj1 (route_always_answers Samples.bare Samples.watch_url 10000 "en" true)).
    reflexivity.
  - apply (proj1 (proj2 (route_always_answers Samples.bare Samples.watch_url 10000 "en"
                           false))).
    reflexivity.
Defined.

Lemma degraded_document_witness :
  Py.result (main.process_video Samples.bare Samples.watch_url 10000 "en")
  = Py.Returned
      (main.MkResponse "result.html"
         (main.ResultPage (processor.minimal_fallback Samples.rick Samples.watch_url)
            (Py.join Py.nl
               [ "# YouTube Video Documentation" +:+ Py.nl;
                 "## Video " +:+ Samples.rick +:+ Py.nl;
                 "### Metadata" +:+ Py.nl;
                 "- **Video ID**: " +:+ Samples.rick;
                 "- **Channel**: Unknown Channel";
                 "- **Duration**: 0s";
                 "- **URL**: " +:+ Samples.watch_url +:+ Py.nl;
                 "### Description" +:+ Py.nl;
                 "Description not available";
                 Py.nl;
                 "### Transcript" +:+ Py.nl;
                 "*Transcript not available for this video.*" +:+ Py.nl ])
            (main.estimate_tokens Samples.bare
               (Py.join Py.nl
                  [ "# YouTube Video Documentation" +:+ Py.nl;
                    "## Video " +:+ Samples.rick +:+ Py.nl;
                    "### Metadata" +:+ Py.nl;
                    "- **Video ID**: " +:+ Samples.rick;
                    "- **Channel**: Unknown Channel";
                    "- **Duration**: 0s";
                    "- **URL**: " +:+ Samples.watch_url +:+ Py.nl;
                    "### Description" +:+ Py.nl;
                    "Description not available";
                    Py.nl;
                    "### Transcript" +:+ Py.nl;
                    "*Transcript not available for this video.*" +:+ Py.nl ]))
            false)
         200).
Proof.
  apply (degraded_document Samples.bare Samples.watch_url 10000 "en" Samples.rick).
  - vm_compute. reflexivity.
  - lia.
  - vm_compute. reflexivity.
  - simpl. exact I.
  - simpl. exact I.
  - vm_compute. reflexivity.
Defined.

Lemma missing_duration_is_a_server_error_witness :
  Py.result (main.process_video Samples.live_stream Samples.watch_url 10000 "en")
  = Py.Returned
      (main.MkResponse "index.html"
         (main.ErrorPage ("Error processing video: "
                          +:+ "unsupported operand type(s) for //: 'NoneType' and 'int'"))
         500).
Proof.
  apply (missing_duration_is_a_server_error Samples.live_stream Samples.watch_url 10000 "en"
           Samples.rick (fun _ => Py.Returned Samples.live_info) Samples.live_info).
  - vm_compute. reflexivity.
  - lia.
  - vm_compute. reflexivity.
  - reflexivity.
  - reflexivity.
  - vm_compute. reflexivity.
Defined.

(** *** utils.py *)

Section Utils.

(** X15. [estimate_tokens] never raises.  With an encoder that returns,
    the estimate is its count; without [tiktoken], or when the encoder
    raises, it is the length of the text divided by four, rounded down:
    zero for a text of fewer than four characters, and never more than
    the length. *)
Theorem estimate_tokens_fallback (env : processor.Env) (text : string) :
  (forall encode n,
     processor.tiktoken env = Some encode -> encode text = Py.Returned n ->
     main.estimate_tokens env text = n)
  /\ (processor.tiktoken env = None
      \/ (exists encode e, processor.tiktoken env = Some encode
                           /\ encode text = Py.Raised e) ->
      4 * main.estimate_tokens env text <= Py.len text
                                        < 4 * main.estimate_tokens env text + 4
      /\ 0 <= main.estimate_tokens env text <= Py.len text
      /\ (Py.len text < 4 -> main.estimate_tokens env text = 0)).
Proof.
  unfold main.estimate_tokens. split.
  - intros encode n -> ->. reflexivity.
  - intros H.
    assert (Hf : 4 * (Py.len text / 4) <= Py.len text < 4 * (Py.len text / 4) + 4
                 /\ 0 <= Py.len text / 4 <= Py.len text
                 /\ (Py.len text < 4 -> Py.len text / 4 = 0)).
    { pose proof (len_nonneg text) as Hn.
      pose proof (Z.div_mod (Py.len text) 4 ltac:(lia)) as Hdm.
      pose proof (Z.mod_pos_bound (Py.len text) 4 ltac:(lia)) as Hb.
      split; [lia |]. split; [lia |]. intros Hlt. apply Z.div_small. lia. }
    destruct H as [-> | (encode & e & -> & ->)]; exact Hf.
Qed.

Import utils.

(** X16. [format_duration] by ranges of the argument: under a minute
    only the seconds are shown, under an hour the minutes and the
    seconds, from an hour on the three components; and a negative
    duration is shown as the time left to the next full hour, without
    any sign: it gives the text of [seconds mod 3600]. *)
Theorem format_duration_ranges (seconds : Z) :
  (0 <= seconds < 60 -> format_duration seconds = Py.str_of_int seconds +:+ "s")
  /\ (60 <= seconds < 3600 ->
      format_duration seconds
      = Py.str_of_int (seconds / 60) +:+ "m " +:+ Py.str_of_int (seconds mod 60) +:+ "s")
  /\ (3600 <= seconds ->
      format_duration seconds
      = Py.str_of_int (seconds / 3600) +:+ "h "
        +:+ Py.str_of_int ((seconds mod 3600) / 60) +:+ "m "
        +:+ Py.str_of_int (seconds mod 60) +:+ "s")
  /\ (seconds < 0 -> format_duration seconds = format_duration (seconds mod 3600)).
Proof.
  unfold format_duration. split; [| split; [| split]].
  - intros H. rewrite (Z.div_small seconds 3600), (Z.mod_small seconds 3600) by lia.
    rewrite (Z.div_small seconds 60), (Z.mod_small seconds 60) by lia. reflexivity.
  - intros H. rewrite (Z.div_small seconds 3600), (Z.mod_small seconds 3600) by lia.
    simpl (0 >? 0).
    assert (0 < seconds / 60) by (apply Z.div_str_pos; lia).
    destruct (Z.gtb_spec (seconds / 60) 0); [reflexivity | lia].
  - intros H.
    assert (0 < seconds / 3600) by (apply Z.div_str_pos; lia).
    destruct (Z.gtb_spec (seconds / 3600) 0); [reflexivity | lia].
  - intros H.
    assert (Hh : seconds / 3600 < 0) by (apply Z.div_lt_upper_bound; lia).
    pose proof (Z.mod_pos_bound seconds 3600 ltac:(lia)) as Hb.
    destruct (Z.gtb_spec (seconds / 3600) 0); [lia |].
    rewrite (Z.div_small (seconds mod 3600) 3600) by lia.
    rewrite (Z.mod_small (seconds mod 3600) 3600) by lia.
    simpl (0 >? 0).
    replace ((seconds mod 3600) mod 60) with (seconds mod 60); [reflexivity |].
    rewrite (Z.div_mod seconds 3600) at 1 by lia.
    replace (3600 * (seconds / 3600) + seconds mod 3600)
      with (seconds mod 3600 + (60 * (seconds / 3600)) * 60) by lia.
    apply Z.mod_add. lia.
Qed.

End Utils.

Lemma estimate_tokens_fallback_witness :
  4 * main.estimate_tokens Samples.bare "never gonna" <= Py.len "never gonna"
    < 4 * main.estimate_tokens Samples.bare "never gonna" + 4
  /\ 0 <= main.estimate_tokens Samples.bare "never gonna" <= Py.len "never gonna"
  /\ (Py.len "never gonna" < 4 -> main.estimate_tokens Samples.bare "never gonna" = 0).
Proof.
  apply (proj2 (estimate_tokens_fallback Samples.bare "never gonna")).
  left. reflexivity.
Defined.

Lemma format_duration_ranges_witness :
  utils.format_duration (-1) = utils.format_duration ((-1) mod 3600)
  /\ utils.format_duration 59 = Py.str_of_int 59 +:+ "s".
Proof.
  split.
  - apply (proj2 (proj2 (proj2 (format_duration_ranges (-1))))). lia.
  - apply (proj1 (format_duration_ranges 59)). lia.
Defined.

(** *** The text of a duration determines the duration *)

Section DurationText.

Import utils.

Lemma uint_digits (d : Decimal.uint) : Spec.all_digits (NilEmpty.string_of_uint d) = true.
Proof. induction d; simpl; auto. Qed.

Lemma uint_text_inj (d d' : Decimal.uint) :
  NilEmpty.string_of_uint d = NilEmpty.string_of_uint d' -> d = d'.
Proof.
  revert d'. induction d; intros [] H; simpl in H; try discriminate H; try reflexivity;
    injection H as H; f_equal; now apply IHd.
Qed.

Lemma nonneg_to_int (n : Z) :
  0 <= n -> exists d, Z.to_int n = Decimal.Pos d /\ d <> Decimal.Nil.
Proof.
  intros H. destruct n as [|p|p]; [| | lia].
  - exists (Decimal.D0 Decimal.Nil). split; [reflexivity | discriminate].
  - exists (Pos.to_uint p). split; [reflexivity |].
    apply DecimalPos.Unsigned.to_uint_nonnil.
Qed.

Lemma str_of_int_uint (n : Z) :
  0 <= n ->
  exists d, Z.to_int n = Decimal.Pos d /\ Py.str_of_int n = NilEmpty.string_of_uint d.
Proof.
  intros H. destruct (nonneg_to_int n H) as (d & Hd & Hn).
  exists d. split; [exact Hd |]. unfold Py.str_of_int. rewrite Hd. simpl.
  now destruct d.
Qed.

Lemma str_of_int_digits (n : Z) : 0 <= n -> Spec.all_digits (Py.str_of_int n) = true.
Proof.
  intros H. destruct (str_of_int_uint n H) as (d & _ & ->). apply uint_digits.
Qed.

Lemma str_of_int_inj (a b : Z) :
  0 <= a -> 0 <= b -> Py.str_of_int a = Py.str_of_int b -> a = b.
Proof.
  intros Ha Hb H.
  destruct (str_of_int_uint a Ha) as (d & Hd & Hsa).
  destruct (str_of_int_uint b Hb) as (d' & Hd' & Hsb).
  rewrite Hsa, Hsb in H. apply uint_text_inj in H. subst d'.
  apply DecimalZ.to_int_inj. congruence.
Qed.

(** Two texts that start with digits and go on with a character that is
    not a digit are equal part by part. *)
Lemma split_at_unit (d1 d2 : string) (c1 c2 : ascii) (r1 r2 : string) :
  Spec.all_digits d1 = true -> Spec.all_digits d2 = true ->
  Spec.is_digit c1 = false -> Spec.is_digit c2 = false ->
  d1 +:+ String c1 r1 = d2 +:+ String c2 r2 ->
  d1 = d2 /\ c1 = c2 /\ r1 = r2.
Proof.
  revert d2. induction d1 as [|x d1 IH]; intros [|y d2] H1 H2 Hc1 Hc2 H; simpl in *.
  - now injection H as -> ->.
  - injection H as -> _. apply andb_true_iff in H2. destruct H2 as [H2 _]. congruence.
  - injection H as -> _. apply andb_true_iff in H1. destruct H1 as [H1 _]. congruence.
  - injection H as -> H.
    apply andb_true_iff in H1, H2. destruct H1 as [_ H1], H2 as [_ H2].
    destruct (IH d2 H1 H2 Hc1 Hc2 H) as (-> & -> & ->). auto.
Qed.

(** X17. Two durations that are not negative and have the same text are
    equal: [format_duration] loses nothing. *)
Theorem format_duration_injective (a b : Z) :
  0 <= a -> 0 <= b -> format_duration a = format_duration b -> a = b.
Proof.
  intros Ha Hb.
  destruct (duration_components a Ha) as (Ea & Hha & Hma & Hsa).
  destruct (duration_components b Hb) as (Eb & Hhb & Hmb & Hsb).
  unfold format_duration.
  set (ha := a / 3600) in *. set (ma := (a mod 3600) / 60) in *. set (sa := a mod 60) in *.
  set (hb := b / 3600) in *. set (mb := (b mod 3600) / 60) in *. set (sb := b mod 60) in *.
  pose proof (str_of_int_digits ha Hha) as Dha.
  pose proof (str_of_int_digits ma ltac:(lia)) as Dma.
  pose proof (str_of_int_digits sa ltac:(lia)) as Dsa.
  pose proof (str_of_int_digits hb Hhb) as Dhb.
  pose proof (str_of_int_digits mb ltac:(lia)) as Dmb.
  pose proof (str_of_int_digits sb ltac:(lia)) as Dsb.
  destruct (Z.gtb_spec ha 0) as [Pa|Na], (Z.gtb_spec hb 0) as [Pb|Nb].
  - intros H.
    apply (split_at_unit _ _ "h" "h") in H; auto. destruct H as (Hh & _ & H).
    injection H as H.
    apply (split_at_unit _ _ "m" "m") in H; auto. destruct H as (Hm & _ & H).
    injection H as H.
    apply (split_at_unit _ _ "s" "s") in H; auto. destruct H as (Hs & _ & _).
    apply str_of_int_inj in Hh, Hm, Hs; lia.
  - destruct (Z.gtb_spec mb 0) as [Qb|Mb]; intros H;
      [apply (split_at_unit _ _ "h" "m") in H | apply (split_at_unit _ _ "h" "s") in H];
      auto; destruct H as (_ & H & _); discriminate H.
  - destruct (Z.gtb_spec ma 0) as [Qa|Ma]; intros H;
      [apply (split_at_unit _ _ "m" "h") in H | apply (split_at_unit _ _ "s" "h") in H];
      auto; destruct H as (_ & H & _); discriminate H.
  - assert (Za : ha = 0) by lia. assert (Zb : hb = 0) by lia.
    destruct (Z.gtb_spec ma 0) as [Qa|Ma], (Z.gtb_spec mb 0) as [Qb|Mb]; intros H.
    + apply (split_at_unit _ _ "m" "m") in H; auto. destruct H as (Hm & _ & H).
      injection H as H.
      apply (split_at_unit _ _ "s" "s") in H; auto. destruct H as (Hs & _ & _).
      apply str_of_int_inj in Hm, Hs; lia.
    + apply (split_at_unit _ _ "m" "s") in H; auto.
      destruct H as (_ & H & _); discriminate H.
    + apply (split_at_unit _ _ "s" "m") in H; auto.
      destruct H as (_ & H & _); discriminate H.
    + apply (split_at_unit _ _ "s" "s") in H; auto. destruct H as (Hs & _ & _).
      apply str_of_int_inj in Hs; lia.
Qed.

End DurationText.

Lemma format_duration_injective_witness : 3725 = 3725.
Proof.
  apply format_duration_injective; [lia | lia | reflexivity].
Defined.

(** *** An empty transcript *)

Section EmptyTranscript.

Import main.

Lemma output_lines_typed (video_info : gmap string Py.value) :
  Spec.schema_typed video_info ->
  exists head, forall transcript,
    output_lines video_info transcript
    = Py.Returned (head ++ transcript_lines video_info transcript).
Proof.
  intros ([seconds Hd] & Hv & Hdesc).
  assert (Hml : exists lines, metadata_lines video_info = Py.Returned lines).
  { unfold metadata_lines, duration_text. rewrite Hd. simpl Py.obind.
    destruct Hv as [-> | [n ->]]; simpl; [eauto |].
    destruct (negb (n =? 0)); simpl; eauto. }
  destruct Hml as [lines Hml].
  assert (Hdl : exists dl, forall at_, description_lines video_info at_ = Py.Returned dl).
  { unfold description_lines. destruct Hdesc as [-> | [t ->]]; simpl; [eauto |].
    destruct (negb (String.eqb t EmptyString)); simpl; eauto. }
  destruct Hdl as [dl Hdl].
  exists ([ "# YouTube Video Documentation" +:+ Py.nl;
            "## " +:+ Py.str (Py.get_default video_info "title" (Py.VStr "Unknown Title"))
            +:+ Py.nl ] ++ lines ++ dl).
  intros transcript. unfold output_lines. rewrite Hml. simpl Py.obind.
  rewrite Hdl. simpl Py.obind. now rewrite <- !app_assoc.
Qed.

Lemma schema_typed_language (video_info : gmap string Py.value) (v : Py.value) :
  Spec.schema_typed video_info ->
  Spec.schema_typed (<["detected_transcript_language" := v]> video_info).
Proof.
  unfold Spec.schema_typed, Py.get_default, Py.get.
  now rewrite !lookup_insert_ne by discriminate.
Qed.

Variables (env : processor.Env) (url : string) (max_transcript_length : Z)
          (language : string).

(** X18. A transcript that is the empty text is reported as available
    and printed as missing: for a valid request whose record is typed as
    the data model, when the transcript fetched is the empty string the
    answer is the result page, status 200, with [transcript_available]
    true, and the document ends with the heading of the transcript and
    "*Transcript not available for this video.*". *)
Theorem empty_transcript_is_reported_available (id detected : string)
    (record : gmap string Py.value) :
  schemas.validate_youtube_url url = Py.Returned url ->
  100 <= max_transcript_length ->
  schemas.extract_video_id (schemas.MkVideoQuery url max_transcript_length false language)
  = Py.Returned id ->
  Py.result (processor._get_video_info env id url) = Py.Returned record ->
  Spec.schema_typed record ->
  Py.result (processor._get_transcript env (processor.init env) id language
               max_transcript_length)
  = Py.Returned (Some EmptyString, Some detected) ->
  exists video_info head,
    Py.result (process_video env url max_transcript_length language)
    = Py.Returned
        (MkResponse "result.html"
           (ResultPage video_info
              (Py.join Py.nl
                 (head ++ [ "### Transcript" +:+ Py.nl;
                            "*Transcript not available for this video.*" +:+ Py.nl ]))
              (estimate_tokens env
                 (Py.join Py.nl
                    (head ++ [ "### Transcript" +:+ Py.nl;
                               "*Transcript not available for this video.*" +:+ Py.nl ])))
              true)
           200).
Proof.
  intros Hv Hlen Hid Hrec Htyped Ht.
  rewrite handler_cases, (new_query_valid _ _ _ Hv Hlen), (processor_result _ _ id Hid).
  simpl schemas.url. simpl schemas.language. simpl schemas.max_transcript_length.
  rewrite Hrec, Ht.
  set (info := if Py.truthy (Py.VStr detected)
               then <["detected_transcript_language" := Py.VStr detected]> record
               else record).
  assert (Hinfo : Spec.schema_typed info).
  { unfold info. destruct (Py.truthy (Py.VStr detected));
      [now apply schema_typed_language | exact Htyped]. }
  destruct (output_lines_typed info Hinfo) as [head Hhead].
  exists info, head. unfold format_output. rewrite Hhead. reflexivity.
Qed.

End EmptyTranscript.

Lemma empty_transcript_is_reported_available_witness :
  exists video_info head,
    Py.result (main.process_video (Samples.captions [Samples.en_empty])
                 Samples.watch_url 10000 "en")
    = Py.Returned
        (main.MkResponse "result.html"
           (main.ResultPage video_info
              (Py.join Py.nl
                 (head ++ [ "### Transcript" +:+ Py.nl;
                            "*Transcript not available for this video.*" +:+ Py.nl ]))
              (main.estimate_tokens (Samples.captions [Samples.en_empty])
                 (Py.join Py.nl
                    (head ++ [ "### Transcript" +:+ Py.nl;
                               "*Transcript not available for this video.*" +:+ Py.nl ])))
              true)
           200).
Proof.
  apply (empty_transcript_is_reported_available (Samples.captions [Samples.en_empty])
           Samples.watch_url 10000 "en" Samples.rick "en"
           (processor.minimal_fallback Samples.rick Samples.watch_url)).
  - vm_compute. reflexivity.
  - lia.
  - vm_compute. reflexivity.
  - vm_compute. reflexivity.
  - split; [exists 0; reflexivity |].
    split; [left; reflexivity | right; eexists; reflexivity].
  - vm_compute. reflexivity.
Defined.
